(** * Accelerometer calibration and inertial integration (assignment-1-imu)

    A shallow embedding of the numerical core of [position.py] and
    [calculate_params.py]: calibration application, stationary detection,
    trapezoidal double integration (plain and with zero-velocity updates),
    drift metrics and the ellipsoid fit.

    The Python code computes on IEEE-754 binary64 numbers.  Every function
    is written once, over an arithmetic interface [Arith], and read at two
    instances: [Float64] (Rocq's primitive binary64 floats, the arithmetic
    the code runs on; used to evaluate the code on concrete inputs) and
    [Exact] (the real numbers; used for the algebraic laws the code obeys
    up to rounding).  The routines of [numpy.linalg] that the ellipsoid fit
    calls are not code of the repository and enter as a parameter.  Nor
    are the BLAS kernels behind [np.dot] and [np.linalg.norm]: how they
    round a dot product depends on the build of the library, so they are
    part of the interface, and binary64 is read with two sets of kernels,
    [Float64] (every product rounded, the products added in index order)
    and [Float64Fused] (fused multiply-add).

    The program comes first (interface, data model, integrators, drift
    metrics, calibration, ellipsoid fit), then the reasoning about the
    loops, then the properties, grouped by component. *)

From Stdlib Require Import Floats.
From Stdlib Require Import List Bool Arith Lia ZArith.
From Stdlib Require Import Reals Lra.
Import ListNotations.

Set Implicit Arguments.

(** ** The arithmetic interface *)

Declare Scope arith_scope.
Delimit Scope arith_scope with A.

Class Arith (F : Type) : Type := {
  fzero : F;
  fone : F;
  fhalf : F;                      (* the literal 0.5 *)
  fgravity : F;                   (* the literal 9.81 *)
  fhundred : F;                   (* the literal 100 *)
  fnan : F;                       (* numpy.nan *)
  fadd : F -> F -> F;
  fsub : F -> F -> F;
  fmul : F -> F -> F;
  fdiv : F -> F -> F;
  fopp : F -> F;
  fsqrt : F -> F;
  fabs : F -> F;
  fltb : F -> F -> bool;          (* x < y *)
  fisnan : F -> bool;
  fof_nat : nat -> F;             (* float(n) *)
  (* one dot product of two 3-vectors, as the BLAS kernels compute it: *)
  ddot : F * F * F -> F * F * F -> F;       (* a vector by a vector *)
  gemv_dot : F * F * F -> F * F * F -> F;   (* a row of [M] in [np.dot(M, v)] *)
  gemm_dot : F * F * F -> F * F * F -> F    (* a row by a column in [np.dot(A, B)] *)
}.

Infix "+" := fadd : arith_scope.
Infix "-" := fsub : arith_scope.
Infix "*" := fmul : arith_scope.
Infix "/" := fdiv : arith_scope.
Notation "- x" := (fopp x) : arith_scope.

(** A dot product with every product rounded and the products added in
    index order. *)
Definition dot_in_order {F : Type} (add mul : F -> F -> F)
    (a b : F * F * F) : F :=
  let '(a0, a1, a2) := a in
  let '(b0, b1, b2) := b in
  add (add (mul a0 b0) (mul a1 b1)) (mul a2 b2).

(** Binary64, as numpy's [float64], with BLAS kernels that round every
    product (the reference BLAS). *)
#[export] Instance Float64 : Arith float := {|
  fzero := 0%float;
  fone := 1%float;
  fhalf := 0.5%float;
  fgravity := 0x1.39eb851eb851fp+3%float;   (* 9.81 rounded to nearest *)
  fhundred := 100%float;
  fnan := PrimFloat.nan;
  fadd := PrimFloat.add;
  fsub := PrimFloat.sub;
  fmul := PrimFloat.mul;
  fdiv := PrimFloat.div;
  fopp := PrimFloat.opp;
  fsqrt := PrimFloat.sqrt;
  fabs := PrimFloat.abs;
  fltb := PrimFloat.ltb;
  fisnan := PrimFloat.is_nan;
  fof_nat := fun n => PrimFloat.of_uint63 (Uint63.of_Z (Z.of_nat n));
  ddot := dot_in_order PrimFloat.add PrimFloat.mul;
  gemv_dot := dot_in_order PrimFloat.add PrimFloat.mul;
  gemm_dot := dot_in_order PrimFloat.add PrimFloat.mul
|}.

(** Exact real arithmetic: no rounding, no NaN. *)
#[export] Instance Exact : Arith R := {|
  fzero := 0%R;
  fone := 1%R;
  fhalf := (1 / 2)%R;
  fgravity := (981 / 100)%R;
  fhundred := 100%R;
  fnan := 0%R;
  fadd := Rplus;
  fsub := Rminus;
  fmul := Rmult;
  fdiv := Rdiv;
  fopp := Ropp;
  fsqrt := sqrt;
  fabs := Rabs;
  fltb := fun x y => if Rlt_dec x y then true else false;
  fisnan := fun _ => false;
  fof_nat := INR;
  ddot := dot_in_order Rplus Rmult;
  gemv_dot := dot_in_order Rplus Rmult;
  gemm_dot := dot_in_order Rplus Rmult
|}.

(** Fused multiply-add, [x * y + z] rounded once: the exact product of two
    finite numbers is added to [z] and the sum is rounded. *)
Definition SFfma (x y z : spec_float) : spec_float :=
  match x, y with
  | S754_finite sx mx ex, S754_finite sy my ey =>
      match z with
      | S754_finite _ _ _ =>
          SFadd prec emax (S754_finite (xorb sx sy) (Pos.mul mx my) (Z.add ex ey)) z
      | S754_zero _ => SFmul prec emax x y
      | _ => z
      end
  | _, _ => SFadd prec emax (SFmul prec emax x y) z
  end.

Definition fma (x y z : float) : float :=
  SF2Prim (SFfma (Prim2SF x) (Prim2SF y) (Prim2SF z)).

(** A dot product accumulated by fused multiply-add, in index order and
    from the last index down. *)
Definition dot_fused (a b : float * float * float) : float :=
  let '(a0, a1, a2) := a in
  let '(b0, b1, b2) := b in
  fma a2 b2 (fma a1 b1 (PrimFloat.mul a0 b0)).

Definition dot_fused_down (a b : float * float * float) : float :=
  let '(a0, a1, a2) := a in
  let '(b0, b1, b2) := b in
  fma a0 b0 (fma a1 b1 (PrimFloat.mul a2 b2)).

(** Binary64 with BLAS kernels built on fused multiply-add: the vector and
    the matrix product accumulate in index order, the matrix-vector product
    from the last index down.  The elementwise operations are those of
    [Float64]. *)
Definition Float64Fused : Arith float := {|
  fzero := 0%float;
  fone := 1%float;
  fhalf := 0.5%float;
  fgravity := 0x1.39eb851eb851fp+3%float;
  fhundred := 100%float;
  fnan := PrimFloat.nan;
  fadd := PrimFloat.add;
  fsub := PrimFloat.sub;
  fmul := PrimFloat.mul;
  fdiv := PrimFloat.div;
  fopp := PrimFloat.opp;
  fsqrt := PrimFloat.sqrt;
  fabs := PrimFloat.abs;
  fltb := PrimFloat.ltb;
  fisnan := PrimFloat.is_nan;
  fof_nat := fun n => PrimFloat.of_uint63 (Uint63.of_Z (Z.of_nat n));
  ddot := dot_fused;
  gemv_dot := dot_fused_down;
  gemm_dot := dot_fused
|}.

(** ** Data model

    A pandas DataFrame with the columns [seconds_elapsed], [x_acc],
    [y_acc], [z_acc] is a list of rows; a column is the list of one field;
    a numpy array is a list updated in place by index. *)

Record sample (F : Type) : Type := mkSample {
  seconds_elapsed : F;
  x_acc : F;
  y_acc : F;
  z_acc : F
}.
Arguments mkSample {F} _ _ _ _.

Definition DataFrame (F : Type) : Type := list (sample F).

(** Exceptions the modelled code can raise. *)
Inductive exn : Type :=
| IndexError          (* [iloc[-1]] on an empty frame *)
| KeyError            (* a missing dictionary key *)
| LinAlgError.        (* raised by numpy.linalg *)

Inductive result (A : Type) : Type :=
| Ok : A -> result A
| Raise : exn -> result A.
Arguments Ok {A} _.
Arguments Raise {A} _.

Section Core.

Context {F : Type} {AF : Arith F}.
Local Open Scope arith_scope.

(** [a[i]] for [i] inside the array (the loops below never leave it). *)
Definition get (a : list F) (i : nat) : F := nth i a fzero.

(** [a[i] = v]; every assignment of the code has [i < len(a)]. *)
Fixpoint set_at (a : list F) (i : nat) (v : F) : list F :=
  match a, i with
  | [], _ => []
  | _ :: r, O => v :: r
  | x :: r, S j => x :: set_at r j v
  end.

(** [np.zeros(n)] *)
Definition zeros (n : nat) : list F := repeat fzero n.

(** ** Module configuration ([position.py], lines 9-21) *)

Record config : Type := mkConfig {
  UNITS_IN_MPS2 : bool;
  APPLY_ZUPT : bool;
  ACC_THRESHOLD : F;
  WINDOW_SIZE : nat
}.

(** ** [detect_stationary_periods] *)

(** [np.sqrt(x**2 + y**2 + z**2)], numpy squaring by one multiplication. *)
Definition magnitude (x y z : F) : F := fsqrt (x * x + y * y + z * z).

(** A sum taken from left to right.  numpy and pandas add long columns in
    another order (pairwise, or by updating a running sum), so in binary64
    their sums can differ from this one in the last bits; in exact
    arithmetic they are this sum. *)
Definition sum_list (l : list F) : F := fold_left fadd l fzero.

(** Sample variance (ddof = 1) of one full window, what
    [rolling(window).var()] yields once the window holds [window] values;
    with fewer than two values the result is missing (NaN).  pandas updates
    the variance from one window to the next; the two-pass value below is
    its result in exact arithmetic, and in binary64 up to rounding. *)
Definition window_var (w : list F) : option F :=
  match w with
  | [] | [_] => None
  | _ =>
      let n := fof_nat (length w) in
      let mean := sum_list w / n in
      Some (sum_list (map (fun x => (x - mean) * (x - mean)) w) / (n - fone))
  end.

(** The window ending at index [i]: the values [i - window + 1 .. i]. *)
Definition window_at (l : list F) (window i : nat) : list F :=
  firstn window (skipn (S i - window) l).

(** [pd.Series(l).rolling(window=window).var()]: one entry per input value,
    missing until the window is full. *)
Definition rolling_var (l : list F) (window : nat) : list (option F) :=
  map (fun i => if S i <? window then None else window_var (window_at l window i))
      (seq 0 (length l)).

(** [.fillna(0)] *)
Definition fillna0 (o : option F) : F :=
  match o with
  | Some x => if fisnan x then fzero else x
  | None => fzero
  end.

Definition detect_stationary_periods
    (data : DataFrame F) (threshold : F) (window_size : nat) : list bool :=
  let acc_mag := map (fun s => magnitude (x_acc s) (y_acc s) (z_acc s)) data in
  let rolling := map fillna0 (rolling_var acc_mag window_size) in
  map (fun v => fltb v threshold) rolling.

(** ** The integrators *)

(** The six arrays the loops update in place. *)
Record arrays : Type := mkArrays {
  vx : list F; vy : list F; vz : list F;
  px : list F; py : list F; pz : list F
}.

(** The column [x_acc_mps2] (and likewise y, z): the input column, times
    9.81 when the input is in g. *)
Definition to_mps2 (cfg : config) (a : F) : F :=
  if UNITS_IN_MPS2 cfg then a else a * fgravity.

Definition acc_mps2 (cfg : config) (col : sample F -> F) (data : DataFrame F)
  : list F := map (fun s => to_mps2 cfg (col s)) data.

(** One iteration of the loop of [calculate_position] (lines 293-304). *)
Definition plain_step (time ax ay az : list F) (st : arrays) (i : nat) : arrays :=
  let dt := get time i - get time (i - 1) in
  let vx' := set_at (vx st) i
               (get (vx st) (i - 1) + fhalf * (get ax (i - 1) + get ax i) * dt) in
  let vy' := set_at (vy st) i
               (get (vy st) (i - 1) + fhalf * (get ay (i - 1) + get ay i) * dt) in
  let vz' := set_at (vz st) i
               (get (vz st) (i - 1) + fhalf * (get az (i - 1) + get az i) * dt) in
  let px' := set_at (px st) i
               (get (px st) (i - 1) + fhalf * (get vx' (i - 1) + get vx' i) * dt) in
  let py' := set_at (py st) i
               (get (py st) (i - 1) + fhalf * (get vy' (i - 1) + get vy' i) * dt) in
  let pz' := set_at (pz st) i
               (get (pz st) (i - 1) + fhalf * (get vz' (i - 1) + get vz' i) * dt) in
  mkArrays vx' vy' vz' px' py' pz'.

(** One iteration of the loop of [calculate_position_with_zupt]
    (lines 219-236). *)
Definition zupt_step (is_stationary : list bool) (time ax ay az : list F)
    (st : arrays) (i : nat) : arrays :=
  let dt := get time i - get time (i - 1) in
  let stationary := nth i is_stationary false in
  let vx' := set_at (vx st) i
               (if negb stationary
                then get (vx st) (i - 1) + fhalf * (get ax (i - 1) + get ax i) * dt
                else fzero) in
  let vy' := set_at (vy st) i
               (if negb stationary
                then get (vy st) (i - 1) + fhalf * (get ay (i - 1) + get ay i) * dt
                else fzero) in
  let vz' := set_at (vz st) i
               (if negb stationary
                then get (vz st) (i - 1) + fhalf * (get az (i - 1) + get az i) * dt
                else fzero) in
  let px' := set_at (px st) i
               (get (px st) (i - 1) + fhalf * (get vx' (i - 1) + get vx' i) * dt) in
  let py' := set_at (py st) i
               (get (py st) (i - 1) + fhalf * (get vy' (i - 1) + get vy' i) * dt) in
  let pz' := set_at (pz st) i
               (get (pz st) (i - 1) + fhalf * (get vz' (i - 1) + get vz' i) * dt) in
  mkArrays vx' vy' vz' px' py' pz'.

(** [vx = np.zeros(n)] ... [pz = np.zeros(n)] *)
Definition init_arrays (n : nat) : arrays :=
  mkArrays (zeros n) (zeros n) (zeros n) (zeros n) (zeros n) (zeros n).

(** [for i in range(1, n): body] *)
Definition for_range_1 (n : nat) (body : arrays -> nat -> arrays)
    (st : arrays) : arrays :=
  fold_left body (seq 1 (n - 1)) st.

(** The frame the integrators return: the input columns, the six
    integrated columns, [displacement], and [is_stationary] (present in
    ZUPT mode only). *)
Record position_data : Type := mkPosition {
  pd_input : DataFrame F;
  pd_arrays : arrays;
  displacement : list F;
  is_stationary_col : option (list bool)
}.

(** [np.sqrt(px**2 + py**2 + pz**2)], elementwise; the three arrays have
    the same length. *)
Fixpoint displacement_of (xs ys zs : list F) : list F :=
  match xs, ys, zs with
  | x :: xs', y :: ys', z :: zs' => magnitude x y z :: displacement_of xs' ys' zs'
  | _, _, _ => []
  end.

Definition calculate_position_with_zupt
    (cfg : config) (data : DataFrame F) (acc_threshold : F) (window_size : nat)
  : position_data :=
  let ax := acc_mps2 cfg (@x_acc F) data in
  let ay := acc_mps2 cfg (@y_acc F) data in
  let az := acc_mps2 cfg (@z_acc F) data in
  let is_stationary := detect_stationary_periods data acc_threshold window_size in
  let time := map (@seconds_elapsed F) data in
  let n := length time in
  let st := for_range_1 n (zupt_step is_stationary time ax ay az) (init_arrays n) in
  mkPosition data st (displacement_of (px st) (py st) (pz st)) (Some is_stationary).

Definition calculate_position (cfg : config) (data : DataFrame F) : position_data :=
  if APPLY_ZUPT cfg
  then calculate_position_with_zupt cfg data (ACC_THRESHOLD cfg) (WINDOW_SIZE cfg)
  else
    let ax := acc_mps2 cfg (@x_acc F) data in
    let ay := acc_mps2 cfg (@y_acc F) data in
    let az := acc_mps2 cfg (@z_acc F) data in
    let time := map (@seconds_elapsed F) data in
    let n := length time in
    let st := for_range_1 n (plain_step time ax ay az) (init_arrays n) in
    mkPosition data st (displacement_of (px st) (py st) (pz st)) None.

End Core.

Arguments config F : clear implicits.
Arguments arrays F : clear implicits.
Arguments position_data F : clear implicits.
Arguments mkConfig {F} _ _ _ _.

(** ** Drift metrics ([calculate_drift]) *)

Section Drift.

Context {F : Type} {AF : Arith F}.
Local Open Scope arith_scope.

(** [.iloc[-1]]: the last row, [IndexError] on an empty frame. *)
Fixpoint iloc_last {A : Type} (l : list A) : result A :=
  match l with
  | [] => Raise IndexError
  | [x] => Ok x
  | _ :: r => iloc_last r
  end.

(** [np.linalg.norm(v)] of a 3-vector: the square root of [v.dot(v)], a
    BLAS dot product. *)
Definition linalg_norm (v : F * F * F) : F := fsqrt (ddot v v).

(** [Series.max()]: the largest value, NaN skipped; NaN when nothing is
    left. *)
Definition series_max (l : list F) : F :=
  match filter (fun x => negb (fisnan x)) l with
  | [] => fnan
  | x :: r => fold_left (fun m y => if fltb m y then y else m) r x
  end.

(** The keys added when [known_distance] is given. *)
Record known_metrics : Type := mkKnown {
  known_distance : F;
  max_displacement : F;
  max_displacement_error : F;
  max_displacement_error_percent : F;
  return_error : F
}.

Record drift_metrics : Type := mkDrift {
  final_position : F * F * F;
  final_displacement : F;
  drift_magnitude : F;
  with_known : option known_metrics
}.

Definition calculate_drift (position : position_data F) (known : option F)
  : result drift_metrics :=
  let st := pd_arrays position in
  match iloc_last (combine (px st) (combine (py st) (pz st))),
        iloc_last (displacement position) with
  | Ok (fx, (fy, fz)), Ok final_disp =>
      let drift := linalg_norm (fx, fy, fz) in
      Ok (mkDrift (fx, fy, fz) final_disp drift
            (match known with
             | None => None
             | Some kd =>
                 let max_disp := series_max (displacement position) in
                 Some (mkKnown kd max_disp
                         (fabs (max_disp - kd))
                         (fabs (max_disp - kd) / kd * fhundred)
                         (linalg_norm (fx, fy, fz)))
             end))
  | Raise e, _ => Raise e
  | _, Raise e => Raise e
  end.

End Drift.

Arguments known_metrics F : clear implicits.
Arguments drift_metrics F : clear implicits.

(** ** Calibration *)

Section Calibration.

Context {F : Type} {AF : Arith F}.
Local Open Scope arith_scope.

Definition vec3 : Type := F * F * F.
Definition mat3 : Type := vec3 * vec3 * vec3.      (* the three rows *)

Definition vsub (a b : vec3) : vec3 :=
  let '(a0, a1, a2) := a in let '(b0, b1, b2) := b in (a0 - b0, a1 - b1, a2 - b2).

Definition vadd (a b : vec3) : vec3 :=
  let '(a0, a1, a2) := a in let '(b0, b1, b2) := b in (a0 + b0, a1 + b1, a2 + b2).

(** [v / k] and [v * k], elementwise. *)
Definition vdiv (a : vec3) (k : F) : vec3 :=
  let '(a0, a1, a2) := a in (a0 / k, a1 / k, a2 / k).

Definition vscale (a : vec3) (k : F) : vec3 :=
  let '(a0, a1, a2) := a in (a0 * k, a1 * k, a2 * k).

(** The dot product written out with the sum and the product of the
    arithmetic: what every kernel computes in exact arithmetic. *)
Definition dot3 (a b : vec3) : F :=
  let '(a0, a1, a2) := a in let '(b0, b1, b2) := b in a0 * b0 + a1 * b1 + a2 * b2.

(** [np.dot(M, v)] for a 3x3 matrix and a vector: the matrix-vector
    kernel, row by row. *)
Definition mat_vec (M : mat3) (v : vec3) : vec3 :=
  let '(r0, r1, r2) := M in (gemv_dot r0 v, gemv_dot r1 v, gemv_dot r2 v).

(** [M.T] *)
Definition transpose (M : mat3) : mat3 :=
  let '((a, b, c), (d, e, f), (g, h, i)) := M in
  ((a, d, g), (b, e, h), (c, f, i)).

(** One row of [np.dot(P, M)] for an n x 3 array [P]: the row times the
    columns of [M], by the matrix-matrix kernel. *)
Definition row_mat (r : vec3) (M : mat3) : vec3 :=
  let '(c0, c1, c2) := transpose M in
  (gemm_dot r c0, gemm_dot r c1, gemm_dot r c2).

(** The application step of [calibrate_accelerometer]
    ([calculate_params.py], lines 80-82). *)
Definition calibrate_points (bias : vec3) (transform_matrix : mat3)
    (data_points : list vec3) : list vec3 :=
  let centered_data := map (fun p => vsub p bias) data_points in
  map (fun c => row_mat c (transpose transform_matrix)) centered_data.

(** The dictionary read from the calibration file; a key may be absent. *)
Record cal_params : Type := mkCal {
  bias : option vec3;
  transform_matrix : option mat3
}.

Definition lookup {A : Type} (entry : option A) : result A :=
  match entry with
  | Some v => Ok v
  | None => Raise KeyError
  end.

Definition acc_of (s : sample F) : vec3 := (x_acc s, y_acc s, z_acc s).

Definition with_acc (s : sample F) (v : vec3) : sample F :=
  let '(x, y, z) := v in mkSample (seconds_elapsed s) x y z.

(** The body of the [try] block of [apply_calibration]
    ([position.py], lines 84-110). *)
Definition apply_calibration_body (cfg : config F) (data : DataFrame F)
    (params : cal_params) : result (DataFrame F) :=
  match lookup (bias params) with
  | Raise e => Raise e
  | Ok b =>
  match lookup (transform_matrix params) with
  | Raise e => Raise e
  | Ok T =>
      let acc_data := map acc_of data in
      let acc_data :=
        if UNITS_IN_MPS2 cfg then map (fun v => vdiv v fgravity) acc_data
        else acc_data in
      let calibrated_data := map (fun v => mat_vec T (vsub v b)) acc_data in
      let calibrated_data :=
        if UNITS_IN_MPS2 cfg then map (fun v => vscale v fgravity) calibrated_data
        else calibrated_data in
      Ok (map (fun sv => with_acc (fst sv) (snd sv)) (combine data calibrated_data))
  end end.

(** [apply_calibration]: without parameters, and on any exception of the
    body, the raw frame comes back. *)
Definition apply_calibration (cfg : config F) (data : DataFrame F)
    (params : option cal_params) : DataFrame F :=
  match params with
  | None => data
  | Some p =>
      match apply_calibration_body cfg data p with
      | Ok calibrated_df => calibrated_df
      | Raise _ => data
      end
  end.

(** What [apply_calibration] does to one sample. *)
Definition apply_sample (units_in_mps2 : bool) (b : vec3) (T : mat3) (x : vec3)
  : vec3 :=
  if units_in_mps2
  then vscale (mat_vec T (vsub (vdiv x fgravity) b)) fgravity
  else mat_vec T (vsub x b).

End Calibration.

Arguments vec3 F : clear implicits.
Arguments mat3 F : clear implicits.
Arguments cal_params F : clear implicits.

(** ** The ellipsoid fit ([fit_ellipsoid]) *)

Section Ellipsoid.

Context {F : Type} {AF : Arith F}.
Local Open Scope arith_scope.

(** The three [numpy.linalg] routines the fit calls.  They are not code of
    this repository: the fit is read for any behaviour of theirs, a
    [LinAlgError] included. *)
Record linalg : Type := mkLinalg {
  lstsq : list (list F) -> list F -> result (list F);
  solve : mat3 F -> vec3 F -> result (vec3 F);
  eig : mat3 F -> result (vec3 F * mat3 F)
}.

(** Dense matrices as lists of rows. *)
Definition matrix : Type := list (list F).

Definition mget (M : matrix) (i j : nat) : F := get (nth i M []) j.

Definition col (M : matrix) (j : nat) : list F := map (fun r => get r j) M.

Definition ncols (M : matrix) : nat := length (hd [] M).

Definition transpose_m (M : matrix) : matrix :=
  map (fun j => col M j) (seq 0 (ncols M)).

(** The entries of a matrix product, every product rounded and added in
    index order; in the fit these products only feed [eig], a parameter. *)
Definition dot_list (a b : list F) : F :=
  sum_list (map (fun xy => fst xy * snd xy) (combine a b)).

(** [A.dot(B)] *)
Definition mat_mul (A B : matrix) : matrix :=
  map (fun r => map (fun j => dot_list r (col B j)) (seq 0 (ncols B))) A.

(** [M[:3, :3]] and [M[:3, 3]] *)
Definition block33 (M : matrix) : mat3 F :=
  ((mget M 0 0, mget M 0 1, mget M 0 2),
   (mget M 1 0, mget M 1 1, mget M 1 2),
   (mget M 2 0, mget M 2 1, mget M 2 2)).

Definition column3 (M : matrix) : vec3 F := (mget M 0 3, mget M 1 3, mget M 2 3).

Definition vmap (f : F -> F) (v : vec3 F) : vec3 F :=
  let '(a, b, c) := v in (f a, f b, f c).

Definition mmap (f : F -> F) (M : mat3 F) : mat3 F :=
  let '(r0, r1, r2) := M in (vmap f r0, vmap f r1, vmap f r2).

(** One row of the design matrix. *)
Definition design_row (x y z : F) : list F :=
  let two := fof_nat 2 in
  [x * x; y * y; z * z; two * x * y; two * x * z; two * y * z;
   two * x; two * y; two * z].

Fixpoint design_matrix (X Y Z : list F) : matrix :=
  match X, Y, Z with
  | x :: X', y :: Y', z :: Z' => design_row x y z :: design_matrix X' Y' Z'
  | _, _, _ => []
  end.

(** The symmetric 4x4 matrix of the quadric with coefficients [u]. *)
Definition quadric_matrix (u : list F) : matrix :=
  [[get u 0; get u 3; get u 4; get u 6];
   [get u 3; get u 1; get u 5; get u 7];
   [get u 4; get u 5; get u 2; get u 8];
   [get u 6; get u 7; get u 8; - fone]].

(** [T = np.eye(4); T[:3, 3] = center] *)
Definition translation (center : vec3 F) : matrix :=
  let '(c0, c1, c2) := center in
  [[fone; fzero; fzero; c0];
   [fzero; fone; fzero; c1];
   [fzero; fzero; fone; c2];
   [fzero; fzero; fzero; fone]].

Definition fit_ellipsoid (L : linalg) (X Y Z : list F)
  : result (vec3 F * vec3 F * mat3 F) :=
  let D := design_matrix X Y Z in
  let b := map (fun _ => fone) X in
  match lstsq L D b with
  | Raise e => Raise e
  | Ok u =>
      let A := quadric_matrix u in
      match solve L (mmap fopp (block33 A)) (column3 A) with
      | Raise e => Raise e
      | Ok center =>
          let T := translation center in
          let R := mat_mul (mat_mul T A) (transpose_m T) in
          match eig L (mmap (fun x => x / - mget R 3 3) (block33 R)) with
          | Raise e => Raise e
          | Ok (evals, evecs) =>
              let radii := vmap (fun ev => fone / fsqrt ev) evals in
              Ok (center, radii, evecs)
          end
      end
  end.

End Ellipsoid.

Arguments linalg F : clear implicits.
Arguments matrix F : clear implicits.

(** * Reasoning about the loops

    ** Arrays: reading and in-place assignment *)

Section ArrayFacts.

Context {F : Type} {AF : Arith F}.

Lemma set_at_length (a : list F) i v : length (set_at a i v) = length a.
Proof.
  revert i; induction a as [|x r IH]; intros [|j]; simpl; auto.
Qed.

Lemma get_set_at_same (a : list F) i v :
  i < length a -> get (set_at a i v) i = v.
Proof.
  unfold get; revert i; induction a as [|x r IH]; intros [|j] Hi; simpl in *;
    try lia; auto.
  apply IH; lia.
Qed.

Lemma get_set_at_other (a : list F) i j v :
  i <> j -> get (set_at a i v) j = get a j.
Proof.
  unfold get; revert i j; induction a as [|x r IH]; intros [|i] [|j] Hij; simpl;
    try congruence; auto.
Qed.

Lemma zeros_length n : length (zeros (F:=F) n) = n.
Proof. apply repeat_length. Qed.

Lemma get_zeros n i : get (zeros n) i = fzero.
Proof.
  unfold get, zeros; revert i; induction n as [|n IH]; intros [|i]; simpl; auto.
Qed.

(** The columns of the loop state, to speak of all six at once. *)
Inductive column : Type := VX | VY | VZ | PX | PY | PZ.

Definition field (c : column) (st : arrays F) : list F :=
  match c with
  | VX => vx st | VY => vy st | VZ => vz st
  | PX => px st | PY => py st | PZ => pz st
  end.

(** All six arrays have length [n]. *)
Definition sized (n : nat) (st : arrays F) : Prop :=
  forall c, length (field c st) = n.

Lemma init_arrays_sized n : sized n (init_arrays n).
Proof. intros []; apply zeros_length. Qed.

Lemma init_arrays_get n c i : get (field c (init_arrays n)) i = fzero.
Proof. destruct c; apply get_zeros. Qed.

Section Loop.

Variables (is_stationary : list bool) (time ax ay az : list F).

#[local] Abbreviation step := (zupt_step is_stationary time ax ay az).

Lemma zupt_step_length c st i :
  length (field c (step st i)) = length (field c st).
Proof. destruct c; simpl; apply set_at_length. Qed.

Lemma zupt_step_other c st i j :
  i <> j -> get (field c (step st i)) j = get (field c st) j.
Proof. intros Hij; destruct c; simpl; apply get_set_at_other; assumption. Qed.

Lemma zupt_loop_length c l st :
  length (field c (fold_left step l st)) = length (field c st).
Proof.
  revert st; induction l as [|i l IH]; intros st; simpl; auto.
  rewrite IH; apply zupt_step_length.
Qed.

Lemma zupt_loop_sized n l st : sized n st -> sized n (fold_left step l st).
Proof. intros H c; rewrite zupt_loop_length; apply H. Qed.

Lemma zupt_loop_other c l st j :
  ~ In j l -> get (field c (fold_left step l st)) j = get (field c st) j.
Proof.
  revert st; induction l as [|i l IH]; intros st Hj; simpl; auto.
  rewrite IH by (intros H; apply Hj; right; exact H).
  apply zupt_step_other; intros ->; apply Hj; left; reflexivity.
Qed.

(** The loop [for i in range(1, n)] seen from index [i]: the iterations
    before [i], iteration [i], the iterations after it. *)
Lemma range_split n i :
  1 <= i < n -> seq 1 (n - 1) = seq 1 (i - 1) ++ i :: seq (S i) (n - 1 - i).
Proof.
  intros Hi.
  replace (n - 1) with ((i - 1) + S (n - 1 - i)) at 1 by lia.
  rewrite seq_app; cbn [seq].
  replace (1 + (i - 1)) with i by lia; reflexivity.
Qed.

(** The state in which iteration [i] starts. *)
Definition before (n i : nat) : arrays F :=
  fold_left step (seq 1 (i - 1)) (init_arrays n).

Definition final (n : nat) : arrays F :=
  for_range_1 n step (init_arrays n).

Lemma final_split n i :
  1 <= i < n ->
  final n = fold_left step (seq (S i) (n - 1 - i)) (step (before n i) i).
Proof.
  intros Hi; unfold final, for_range_1, before.
  rewrite (range_split Hi), fold_left_app; reflexivity.
Qed.

Lemma before_sized n i : sized n (before n i).
Proof. apply zupt_loop_sized, init_arrays_sized. Qed.

Lemma final_sized n : sized n (final n).
Proof. apply zupt_loop_sized, init_arrays_sized. Qed.

(** Entry [j <= i] of the final arrays is the one iteration [i] left. *)
Lemma final_at_le n i j c :
  1 <= i < n -> j <= i ->
  get (field c (final n)) j = get (field c (step (before n i) i)) j.
Proof.
  intros Hi Hj; rewrite (final_split Hi).
  apply zupt_loop_other; rewrite in_seq; lia.
Qed.

(** Entry [j < i] of the final arrays is already there when iteration [i]
    starts. *)
Lemma final_at_lt n i j c :
  1 <= i < n -> j < i ->
  get (field c (final n)) j = get (field c (before n i)) j.
Proof.
  intros Hi Hj; rewrite (final_at_le c Hi) by lia.
  apply zupt_step_other; lia.
Qed.

(** Index 0 is never assigned. *)
Lemma final_at_0 n c : get (field c (final n)) 0 = fzero.
Proof.
  unfold final, for_range_1; rewrite zupt_loop_other.
  - apply init_arrays_get.
  - rewrite in_seq; lia.
Qed.

(** What iteration [i] writes, in terms of the final arrays. *)
Definition dt_at (i : nat) : F := fsub (get time i) (get time (i - 1)).

Definition velocity_rule (acc v : list F) (i : nat) : Prop :=
  get v i =
  if negb (nth i is_stationary false)
  then fadd (get v (i - 1))
            (fmul (fmul fhalf (fadd (get acc (i - 1)) (get acc i))) (dt_at i))
  else fzero.

Definition position_rule (v p : list F) (i : nat) : Prop :=
  get p i =
  fadd (get p (i - 1))
       (fmul (fmul fhalf (fadd (get v (i - 1)) (get v i))) (dt_at i)).

Ltac at_before n i Hi :=
  repeat match goal with
  | |- context [get (?f (final n)) (i - 1)] =>
      change (f (final n)) with (field ltac:(first
        [ unify f (@vx F); exact VX | unify f (@vy F); exact VY
        | unify f (@vz F); exact VZ | unify f (@px F); exact PX
        | unify f (@py F); exact PY | unify f (@pz F); exact PZ ]) (final n));
      rewrite (@final_at_lt n i (i - 1) _ Hi) by lia; cbn [field]
  | |- context [get (?f (final n)) i] =>
      change (f (final n)) with (field ltac:(first
        [ unify f (@vx F); exact VX | unify f (@vy F); exact VY
        | unify f (@vz F); exact VZ | unify f (@px F); exact PX
        | unify f (@py F); exact PY | unify f (@pz F); exact PZ ]) (final n));
      rewrite (@final_at_le n i i _ Hi) by lia; cbn [field]
  end.

Lemma loop_velocity_rule n i :
  1 <= i < n ->
  velocity_rule ax (vx (final n)) i /\
  velocity_rule ay (vy (final n)) i /\
  velocity_rule az (vz (final n)) i.
Proof.
  intros Hi; unfold velocity_rule.
  pose proof (before_sized n i VX) as Lx.
  pose proof (before_sized n i VY) as Ly.
  pose proof (before_sized n i VZ) as Lz.
  cbn [field] in Lx, Ly, Lz.
  at_before n i Hi.
  unfold zupt_step; cbn [vx vy vz].
  rewrite !get_set_at_same by lia.
  repeat split; reflexivity.
Qed.

Lemma loop_position_rule n i :
  1 <= i < n ->
  position_rule (vx (final n)) (px (final n)) i /\
  position_rule (vy (final n)) (py (final n)) i /\
  position_rule (vz (final n)) (pz (final n)) i.
Proof.
  intros Hi; unfold position_rule.
  pose proof (before_sized n i PX) as Lx.
  pose proof (before_sized n i PY) as Ly.
  pose proof (before_sized n i PZ) as Lz.
  pose proof (before_sized n i VX) as Mx.
  pose proof (before_sized n i VY) as My.
  pose proof (before_sized n i VZ) as Mz.
  cbn [field] in Lx, Ly, Lz, Mx, My, Mz.
  at_before n i Hi.
  unfold zupt_step; cbn [vx vy vz px py pz].
  rewrite !get_set_at_same by lia.
  rewrite !(@get_set_at_other _ i (i - 1)) by lia.
  repeat split; reflexivity.
Qed.

End Loop.

Lemma plain_step_zupt_step (time ax ay az : list F) st i :
  plain_step time ax ay az st i = zupt_step [] time ax ay az st i.
Proof.
  unfold plain_step, zupt_step.
  replace (nth i (@nil bool) false) with false by (destruct i; reflexivity).
  reflexivity.
Qed.

Lemma plain_loop_zupt_loop (time ax ay az : list F) l st :
  fold_left (plain_step time ax ay az) l st
  = fold_left (zupt_step [] time ax ay az) l st.
Proof.
  revert st; induction l as [|i l IH]; intros st; simpl; auto.
  rewrite plain_step_zupt_step; apply IH.
Qed.

End ArrayFacts.

(** ** Reading a motion state off the integrated columns *)

Section States.

Context {F : Type} {AF : Arith F}.

Definition zero3 : F * F * F := (fzero, fzero, fzero).

Definition velocity_at (st : arrays F) (i : nat) : F * F * F :=
  (get (vx st) i, get (vy st) i, get (vz st) i).

Definition position_at (st : arrays F) (i : nat) : F * F * F :=
  (get (px st) i, get (py st) i, get (pz st) i).

(** The position update of iteration [i], on the three axes. *)
Definition position_rule3 (time : list F) (st : arrays F) (i : nat) : Prop :=
  position_rule time (vx st) (px st) i /\
  position_rule time (vy st) (py st) i /\
  position_rule time (vz st) (pz st) i.

(** The velocity update of iteration [i], on the three axes;
    [is_stationary = []] is plain mode. *)
Definition velocity_rule3 (is_stationary : list bool) (time ax ay az : list F)
    (st : arrays F) (i : nat) : Prop :=
  velocity_rule is_stationary time ax (vx st) i /\
  velocity_rule is_stationary time ay (vy st) i /\
  velocity_rule is_stationary time az (vz st) i.

Definition times (data : DataFrame F) : list F := map (@seconds_elapsed F) data.

Lemma displacement_of_length (xs ys zs : list F) n :
  length xs = n -> length ys = n -> length zs = n ->
  length (displacement_of xs ys zs) = n.
Proof.
  revert ys zs n; induction xs as [|x xs IH]; intros [|y ys] [|z zs] [|n];
    simpl; intros; try lia.
  f_equal; apply IH; lia.
Qed.

Lemma detect_stationary_periods_length (data : DataFrame F) thr w :
  length (detect_stationary_periods data thr w) = length data.
Proof.
  unfold detect_stationary_periods, rolling_var; cbv zeta.
  rewrite !length_map, length_seq; reflexivity.
Qed.

(** The arrays each mode returns are the [final] arrays of its loop. *)
Lemma zupt_arrays cfg (data : DataFrame F) thr w :
  pd_arrays (calculate_position_with_zupt cfg data thr w)
  = final (detect_stationary_periods data thr w) (times data)
      (acc_mps2 cfg (@x_acc F) data) (acc_mps2 cfg (@y_acc F) data)
      (acc_mps2 cfg (@z_acc F) data) (length data).
Proof.
  unfold calculate_position_with_zupt, final, times; cbv zeta; cbn [pd_arrays].
  rewrite length_map; reflexivity.
Qed.

Lemma plain_arrays cfg (data : DataFrame F) :
  APPLY_ZUPT cfg = false ->
  pd_arrays (calculate_position cfg data)
  = final [] (times data)
      (acc_mps2 cfg (@x_acc F) data) (acc_mps2 cfg (@y_acc F) data)
      (acc_mps2 cfg (@z_acc F) data) (length data).
Proof.
  intros Hz; unfold calculate_position, final, times, for_range_1; rewrite Hz.
  cbv zeta; cbn [pd_arrays]. rewrite length_map. apply plain_loop_zupt_loop.
Qed.

Lemma zupt_dispatch cfg (data : DataFrame F) :
  APPLY_ZUPT cfg = true ->
  calculate_position cfg data
  = calculate_position_with_zupt cfg data (ACC_THRESHOLD cfg) (WINDOW_SIZE cfg).
Proof. intros Hz; unfold calculate_position; rewrite Hz; reflexivity. Qed.

(** One state per sample, the first one at rest at the origin. *)
Definition boundary_ok (data : DataFrame F) (r : position_data F) : Prop :=
  pd_input r = data /\
  sized (length data) (pd_arrays r) /\
  length (displacement r) = length data /\
  velocity_at (pd_arrays r) 0 = zero3 /\
  position_at (pd_arrays r) 0 = zero3.

Lemma final_boundary is_stationary time ax ay az n :
  let st := final is_stationary time ax ay az n in
  sized n st /\ velocity_at st 0 = zero3 /\ position_at st 0 = zero3.
Proof.
  intros st; split; [apply final_sized|].
  unfold velocity_at, position_at, zero3, st.
  pose proof (fun c => final_at_0 is_stationary time ax ay az n c) as H0.
  pose proof (H0 VX) as Hvx; pose proof (H0 VY) as Hvy; pose proof (H0 VZ) as Hvz.
  pose proof (H0 PX) as Hpx; pose proof (H0 PY) as Hpy; pose proof (H0 PZ) as Hpz.
  cbn [field] in *.
  rewrite Hvx, Hvy, Hvz, Hpx, Hpy, Hpz; auto.
Qed.

Lemma zupt_boundary cfg (data : DataFrame F) thr w :
  boundary_ok data (calculate_position_with_zupt cfg data thr w).
Proof.
  unfold boundary_ok; rewrite zupt_arrays.
  destruct (final_boundary (detect_stationary_periods data thr w) (times data)
              (acc_mps2 cfg (@x_acc F) data) (acc_mps2 cfg (@y_acc F) data)
              (acc_mps2 cfg (@z_acc F) data) (length data)) as (Hs & Hv & Hp).
  repeat split; auto.
  unfold calculate_position_with_zupt; cbv zeta; cbn [displacement].
  rewrite length_map.
  apply displacement_of_length; [exact (Hs PX) | exact (Hs PY) | exact (Hs PZ)].
Qed.

End States.


(** * Properties of the integrators *)

Section IntegratorFacts.

Context {F : Type} {AF : Arith F}.

Lemma plain_boundary (cfg : config F) (data : DataFrame F) :
  APPLY_ZUPT cfg = false -> boundary_ok data (calculate_position cfg data).
Proof.
  intros Hz; unfold boundary_ok; rewrite (plain_arrays _ _ Hz).
  destruct (final_boundary [] (times data)
              (acc_mps2 cfg (@x_acc F) data) (acc_mps2 cfg (@y_acc F) data)
              (acc_mps2 cfg (@z_acc F) data) (length data)) as (Hs & Hv & Hp).
  assert (Hd : displacement (calculate_position cfg data)
               = let st := pd_arrays (calculate_position cfg data) in
                 displacement_of (px st) (py st) (pz st)).
  { unfold calculate_position; rewrite Hz; reflexivity. }
  assert (Hi : pd_input (calculate_position cfg data) = data).
  { unfold calculate_position; rewrite Hz; reflexivity. }
  repeat split; auto.
  rewrite Hd; cbv zeta; rewrite (plain_arrays _ _ Hz).
  apply displacement_of_length; [exact (Hs PX) | exact (Hs PY) | exact (Hs PZ)].
Qed.

Lemma calculate_position_boundary (cfg : config F) (data : DataFrame F) :
  boundary_ok data (calculate_position cfg data).
Proof.
  destruct (APPLY_ZUPT cfg) eqn:Hz.
  - rewrite (zupt_dispatch _ _ Hz); apply zupt_boundary.
  - apply plain_boundary, Hz.
Qed.

(** Both updates of iteration [i], for the arrays ZUPT mode returns. *)
Lemma zupt_rules (cfg : config F) (data : DataFrame F) thr w i :
  1 <= i < length data ->
  let st := pd_arrays (calculate_position_with_zupt cfg data thr w) in
  velocity_rule3 (detect_stationary_periods data thr w) (times data)
    (acc_mps2 cfg (@x_acc F) data) (acc_mps2 cfg (@y_acc F) data)
    (acc_mps2 cfg (@z_acc F) data) st i /\
  position_rule3 (times data) st i.
Proof.
  intros Hi st; unfold st; rewrite zupt_arrays; split.
  - apply loop_velocity_rule, Hi.
  - apply (loop_position_rule _ _ _ _ _ Hi).
Qed.

(** Both updates of iteration [i], for the arrays plain mode returns. *)
Lemma plain_rules (cfg : config F) (data : DataFrame F) i :
  APPLY_ZUPT cfg = false ->
  1 <= i < length data ->
  let st := pd_arrays (calculate_position cfg data) in
  velocity_rule3 [] (times data)
    (acc_mps2 cfg (@x_acc F) data) (acc_mps2 cfg (@y_acc F) data)
    (acc_mps2 cfg (@z_acc F) data) st i /\
  position_rule3 (times data) st i.
Proof.
  intros Hz Hi st; unfold st; rewrite (plain_arrays _ _ Hz); split.
  - apply loop_velocity_rule, Hi.
  - apply (loop_position_rule _ _ _ _ _ Hi).
Qed.

(** A sample detected stationary has an index inside the series. *)
Lemma stationary_in_range (data : DataFrame F) thr w i :
  nth i (detect_stationary_periods data thr w) false = true -> i < length data.
Proof.
  intros H; rewrite <- (detect_stationary_periods_length data thr w).
  destruct (Nat.lt_ge_cases i (length (detect_stationary_periods data thr w)))
    as [Hlt|Hge]; [exact Hlt|].
  rewrite nth_overflow in H by exact Hge; discriminate.
Qed.

End IntegratorFacts.

(** C2.  In ZUPT mode, at every index [i >= 1] detected stationary the
    velocity is reset to (0,0,0) on the three axes, whatever the previous
    velocity was, and the position entry obeys the trapezoidal rule over
    the velocities: the same rule plain mode obeys at that index. *)
Theorem zupt_clamps_velocity :
  forall (F : Type) (AF : Arith F) (cfg : config F) (data : DataFrame F)
         (thr : F) (w i : nat),
    1 <= i ->
    nth i (detect_stationary_periods data thr w) false = true ->
    let st := pd_arrays (calculate_position_with_zupt cfg data thr w) in
    velocity_at st i = zero3 /\
    position_rule3 (times data) st i /\
    (forall cfg', APPLY_ZUPT cfg' = false ->
       position_rule3 (times data) (pd_arrays (calculate_position cfg' data)) i).
Proof.
  intros F AF cfg data thr w i Hi Hst st.
  pose proof (stationary_in_range data thr w i Hst) as Hn.
  destruct (zupt_rules cfg data thr w (conj Hi Hn)) as [(Hx & Hy & Hz) Hp].
  fold st in Hx, Hy, Hz, Hp.
  unfold velocity_rule in Hx, Hy, Hz; rewrite Hst in Hx, Hy, Hz; cbn [negb] in *.
  split; [|split].
  - unfold velocity_at, zero3; rewrite Hx, Hy, Hz; reflexivity.
  - exact Hp.
  - intros cfg' Hplain.
    exact (proj2 (plain_rules cfg' data Hplain (conj Hi Hn))).
Qed.

(** C3.  In both modes the integrator returns one entry per input sample
    in every integrated column, and the entry of index 0 is zero on the
    three axes of velocity and of position. *)
Theorem integration_boundary :
  forall (F : Type) (AF : Arith F) (cfg : config F) (data : DataFrame F)
         (thr : F) (w : nat),
    boundary_ok data (calculate_position cfg data) /\
    boundary_ok data (calculate_position_with_zupt cfg data thr w).
Proof.
  intros; split; [apply calculate_position_boundary | apply zupt_boundary].
Qed.

(** ** The three-sample scenario *)

(** Times 0, 1, 2 and x-acceleration 0, 2, 0, the other axes at zero. *)
Definition scenario {F : Type} {AF : Arith F} : DataFrame F :=
  [ mkSample fzero fzero fzero fzero;
    mkSample fone (fof_nat 2) fzero fzero;
    mkSample (fof_nat 2) fzero fzero fzero ].

(** Plain mode on input in m/s^2. *)
Definition plain_mps2 {F : Type} {AF : Arith F} : config F :=
  mkConfig true false fzero 5.

Definition float_list_eqb (a b : list float) : bool :=
  (length a =? length b) && forallb (fun xy => PrimFloat.eqb (fst xy) (snd xy)) (combine a b).

Lemma float_list_eqb_refl_on (a b : list float) :
  a = b -> float_list_eqb a a = true -> float_list_eqb a b = true.
Proof. intros ->; auto. Qed.

(** C1, as the specification states it, fails on the code: the third
    velocity is 2, not 1, and the third position is 2, not 1.5. *)
Lemma scenario_not_as_stated :
  let st := pd_arrays (calculate_position plain_mps2 (scenario (F:=float))) in
  ~ (vx st = [0; 1; 1]%float /\ px st = [0; 0.5; 1.5]%float).
Proof.
  intros st [Hv _].
  assert (H : float_list_eqb (vx st) [0; 1; 1]%float = true).
  { apply float_list_eqb_refl_on; [exact Hv | vm_compute; reflexivity]. }
  vm_compute in H; discriminate H.
Qed.

(** C1, amended.  On times 0, 1, 2 with x-acceleration 0, 2, 0, plain
    mode yields x-velocity [0, 1, 2] and x-position [0, 0.5, 2], in
    binary64 and in exact arithmetic alike; the other axes stay at zero. *)
Theorem scenario_trapezoid :
  (let st := pd_arrays (calculate_position plain_mps2 (scenario (F:=float))) in
   vx st = [0; 1; 2]%float /\ px st = [0; 0.5; 2]%float /\
   vy st = [0; 0; 0]%float /\ vz st = [0; 0; 0]%float /\
   py st = [0; 0; 0]%float /\ pz st = [0; 0; 0]%float) /\
  (let st := pd_arrays (calculate_position plain_mps2 (scenario (F:=R))) in
   vx st = [0; 1; 2]%R /\ px st = [0; 1 / 2; 2]%R /\
   vy st = [0; 0; 0]%R /\ vz st = [0; 0; 0]%R /\
   py st = [0; 0; 0]%R /\ pz st = [0; 0; 0]%R).
Proof.
  split.
  - vm_compute; repeat split; reflexivity.
  - cbv zeta; repeat split; cbn; repeat (f_equal; try lra).
Qed.

(** ** Steps with a non-positive time difference *)

(** Two samples, the second one second earlier than the first. *)
Definition backwards : DataFrame float :=
  [ mkSample 1 2 0 0; mkSample 0 2 0 0 ]%float.

(** C4, as stated, fails on the code: with [dt = -1] the step changes the
    velocity from 0 to -2 and the position from 0 to 1. *)
Lemma negative_dt_updates :
  let st := pd_arrays (calculate_position plain_mps2 backwards) in
  PrimFloat.leb (get (times backwards) 1 - get (times backwards) 0)%float 0 = true /\
  velocity_at st 1 = (-2, 0, 0)%float /\ velocity_at st 0 = (0, 0, 0)%float /\
  position_at st 1 = (1, 0, 0)%float /\ position_at st 0 = (0, 0, 0)%float /\
  velocity_at st 1 <> velocity_at st 0 /\
  position_at st 1 <> position_at st 0.
Proof.
  cbv zeta.
  assert (Hv1 : velocity_at (pd_arrays (calculate_position plain_mps2 backwards)) 1
                = (-2, 0, 0)%float) by (vm_compute; reflexivity).
  assert (Hv0 : velocity_at (pd_arrays (calculate_position plain_mps2 backwards)) 0
                = (0, 0, 0)%float) by (vm_compute; reflexivity).
  assert (Hp1 : position_at (pd_arrays (calculate_position plain_mps2 backwards)) 1
                = (1, 0, 0)%float) by (vm_compute; reflexivity).
  assert (Hp0 : position_at (pd_arrays (calculate_position plain_mps2 backwards)) 0
                = (0, 0, 0)%float) by (vm_compute; reflexivity).
  rewrite Hv1, Hv0, Hp1, Hp0.
  repeat split; try reflexivity.
  - intros H.
    apply (f_equal (fun v => PrimFloat.eqb (fst (fst v)) 0)) in H.
    vm_compute in H; discriminate H.
  - intros H.
    apply (f_equal (fun v => PrimFloat.eqb (fst (fst v)) 0)) in H.
    vm_compute in H; discriminate H.
Qed.

Lemma triple_eq {A : Type} (a b c a' b' c' : A) :
  a = a' -> b = b' -> c = c' -> (a, b, c) = (a', b', c').
Proof. congruence. Qed.

(** In exact arithmetic an iteration with [dt = 0] that is not a
    zero-velocity update leaves velocity and position unchanged; the
    position is unchanged at a zero-velocity update too. *)
Lemma zero_dt_step (is_stationary : list bool) (time ax ay az : list R)
    (st : arrays R) (i : nat) :
  velocity_rule3 is_stationary time ax ay az st i ->
  position_rule3 time st i ->
  (get time i - get time (i - 1) = 0)%R ->
  position_at st i = position_at st (i - 1) /\
  (nth i is_stationary false = false ->
   velocity_at st i = velocity_at st (i - 1)).
Proof.
  intros (Hx & Hy & Hz) (Px & Py & Pz) Hdt.
  unfold velocity_rule in Hx, Hy, Hz; unfold position_rule in Px, Py, Pz.
  unfold dt_at in *; cbn [fsub fadd fmul fhalf fzero Exact] in *.
  rewrite Hdt in *.
  unfold velocity_at, position_at; split.
  - rewrite Px, Py, Pz; apply triple_eq; lra.
  - intros Hs; rewrite Hs in Hx, Hy, Hz; cbn [negb] in Hx, Hy, Hz.
    rewrite Hx, Hy, Hz; apply triple_eq; lra.
Qed.

(** C4, amended.  The integrator has no guard on the time difference: at
    an index [i >= 1] with [t[i] - t[i-1] <= 0] both modes apply their
    usual updates with that difference.  In exact arithmetic a step with
    [dt = 0] leaves the position unchanged, and the velocity too unless
    ZUPT mode resets it at a stationary sample. *)
Theorem nonpositive_dt_step :
  forall (cfg : config R) (data : DataFrame R) (thr : R) (w i : nat),
    APPLY_ZUPT cfg = false ->
    1 <= i < length data ->
    (get (times data) i - get (times data) (i - 1) <= 0)%R ->
    let ax := acc_mps2 cfg (@x_acc R) data in
    let ay := acc_mps2 cfg (@y_acc R) data in
    let az := acc_mps2 cfg (@z_acc R) data in
    let stat := detect_stationary_periods data thr w in
    let st := pd_arrays (calculate_position cfg data) in
    let zt := pd_arrays (calculate_position_with_zupt cfg data thr w) in
    (velocity_rule3 [] (times data) ax ay az st i /\
     position_rule3 (times data) st i) /\
    (velocity_rule3 stat (times data) ax ay az zt i /\
     position_rule3 (times data) zt i) /\
    ((get (times data) i - get (times data) (i - 1) = 0)%R ->
     (velocity_at st i = velocity_at st (i - 1) /\
      position_at st i = position_at st (i - 1)) /\
     (position_at zt i = position_at zt (i - 1) /\
      (nth i stat false = false -> velocity_at zt i = velocity_at zt (i - 1)))).
Proof.
  intros cfg data thr w i Hz Hi _ ax ay az stat st zt.
  destruct (plain_rules cfg data Hz Hi) as [Hv Hp]; fold st ax ay az in Hv, Hp.
  destruct (zupt_rules cfg data thr w Hi) as [Zv Zp]; fold zt ax ay az stat in Zv, Zp.
  split; [split; assumption|]; split; [split; assumption|].
  intros Hdt.
  destruct (zero_dt_step Hv Hp Hdt) as [Pp Pv].
  destruct (zero_dt_step Zv Zp Hdt) as [Qp Qv].
  split; [split; [apply Pv; destruct i; reflexivity | exact Pp]|].
  split; [exact Qp | exact Qv].
Qed.

(** A series at constant acceleration: with a window of 2 every sample is
    detected stationary. *)
Definition steady : DataFrame float :=
  [ mkSample 0 1 0 0; mkSample 1 1 0 0; mkSample 2 1 0 0 ]%float.

Lemma zupt_clamps_velocity_witness :
  nth 1 (detect_stationary_periods steady 0x1p-7%float 2) false = true /\
  velocity_at
    (pd_arrays (calculate_position_with_zupt plain_mps2 steady 0x1p-7%float 2)) 1
  = zero3.
Proof.
  split; [vm_compute; reflexivity|].
  refine (proj1 (@zupt_clamps_velocity float Float64 plain_mps2 steady 0x1p-7%float 2 1 _ _)).
  - apply le_n.
  - vm_compute; reflexivity.
Defined.

(** Two samples taken at the same instant. *)
Definition simultaneous : DataFrame R :=
  [ mkSample 0 1 0 0; mkSample 0 3 0 0 ]%R.

Lemma nonpositive_dt_step_witness :
  let st := pd_arrays (calculate_position plain_mps2 simultaneous) in
  velocity_at st 1 = velocity_at st 0 /\ position_at st 1 = position_at st 0.
Proof.
  cbv zeta.
  refine (proj1 (proj2 (proj2
            (@nonpositive_dt_step plain_mps2 simultaneous 0%R 5 1 eq_refl _ _)) _)).
  - cbn; lia.
  - cbn; lra.
  - cbn; lra.
Defined.

(** * Properties of the drift metrics *)

Section DriftFacts.

Context {F : Type} {AF : Arith F}.

Lemma iloc_last_cons {A : Type} (x y : A) (l : list A) :
  iloc_last (x :: y :: l) = iloc_last (y :: l).
Proof. reflexivity. Qed.

Lemma iloc_last_nonempty {A : Type} (l : list A) :
  l <> [] -> exists x, iloc_last l = Ok x.
Proof.
  induction l as [|x [|y r] IH]; intros Hne.
  - congruence.
  - exists x; reflexivity.
  - rewrite iloc_last_cons; apply IH; discriminate.
Qed.

(** The last displacement is the magnitude of the last position. *)
Lemma iloc_last_displacement (xs ys zs : list F) fx fy fz :
  length xs = length ys -> length ys = length zs ->
  iloc_last (combine xs (combine ys zs)) = Ok (fx, (fy, fz)) ->
  iloc_last (displacement_of xs ys zs) = Ok (magnitude fx fy fz).
Proof.
  revert ys zs; induction xs as [|x xs IH]; intros [|y ys] [|z zs] Hxy Hyz H;
    simpl in Hxy, Hyz; try discriminate.
  destruct xs as [|x' xs], ys as [|y' ys], zs as [|z' zs];
    simpl in Hxy, Hyz; try discriminate.
  - simpl in H; injection H as -> -> ->; reflexivity.
  - change (iloc_last (displacement_of (x' :: xs) (y' :: ys) (z' :: zs))
            = Ok (magnitude fx fy fz)).
    apply IH; [simpl; lia | simpl; lia | exact H].
Qed.

(** The last row of three columns of one length, by index. *)
Lemma iloc_last_get (xs ys zs : list F) fx fy fz :
  length xs = length ys -> length ys = length zs ->
  iloc_last (combine xs (combine ys zs)) = Ok (fx, (fy, fz)) ->
  (get xs (length xs - 1), get ys (length xs - 1), get zs (length xs - 1))
  = (fx, fy, fz).
Proof.
  revert ys zs; induction xs as [|x xs IH]; intros [|y ys] [|z zs] Hxy Hyz H;
    simpl in Hxy, Hyz; try discriminate.
  destruct xs as [|x' xs], ys as [|y' ys], zs as [|z' zs];
    simpl in Hxy, Hyz; try discriminate.
  - simpl in H; injection H as -> -> ->; reflexivity.
  - change (iloc_last (combine (x' :: xs) (combine (y' :: ys) (z' :: zs)))
            = Ok (fx, (fy, fz))) in H.
    specialize (IH (y' :: ys) (z' :: zs) ltac:(simpl; lia) ltac:(simpl; lia) H).
    cbn [length] in IH |- *.
    replace (S (S (length xs)) - 1) with (S (S (length xs) - 1)) by lia.
    exact IH.
Qed.

(** On a frame produced by the integrator from a non-empty series,
    [calculate_drift] returns metrics whose final position is the last row
    of the position columns and whose final displacement is the magnitude
    of that row. *)
Lemma calculate_drift_integrated (cfg : config F) (data : DataFrame F)
    (known : option F) :
  data <> [] ->
  exists fx fy fz,
    let position := calculate_position cfg data in
    position_at (pd_arrays position) (length data - 1) = (fx, fy, fz) /\
    calculate_drift position known =
    Ok (mkDrift (fx, fy, fz) (magnitude fx fy fz) (linalg_norm (fx, fy, fz))
          (match known with
           | None => None
           | Some kd =>
               let max_disp := series_max (displacement position) in
               Some (mkKnown kd max_disp
                       (fabs (fsub max_disp kd))
                       (fmul (fdiv (fabs (fsub max_disp kd)) kd) fhundred)
                       (linalg_norm (fx, fy, fz)))
           end)).
Proof.
  intros Hne.
  destruct (calculate_position_boundary cfg data) as (Hin & Hs & Hd & _).
  set (position := calculate_position cfg data) in *.
  set (st := pd_arrays position) in *.
  pose proof (Hs PX) as Lx; pose proof (Hs PY) as Ly; pose proof (Hs PZ) as Lz.
  cbn [field] in Lx, Ly, Lz.
  assert (Hdisp : displacement position = displacement_of (px st) (py st) (pz st)).
  { unfold st, position, calculate_position, calculate_position_with_zupt.
    destruct (APPLY_ZUPT cfg); reflexivity. }
  destruct (@iloc_last_nonempty _ (combine (px st) (combine (py st) (pz st))))
    as [[fx [fy fz]] Hlast].
  { intros Hnil. apply (f_equal (@length _)) in Hnil.
    rewrite !length_combine, Lx, Ly, Lz in Hnil; simpl in Hnil.
    destruct data; [congruence | simpl in Hnil; lia]. }
  exists fx, fy, fz; cbv zeta; split.
  - unfold position_at; rewrite <- Lx.
    apply iloc_last_get; [ transitivity (length data); [exact Lx | symmetry; exact Ly]
                         | transitivity (length data); [exact Ly | symmetry; exact Lz]
                         | exact Hlast ].
  - unfold calculate_drift; fold st.
    rewrite Hlast, Hdisp.
    rewrite (@iloc_last_displacement _ _ _ fx fy fz) by (congruence || exact Hlast).
    reflexivity.
Qed.

End DriftFacts.

(** In exact arithmetic [np.linalg.norm] of a 3-vector is the magnitude the
    integrator stores in [displacement]. *)
Lemma linalg_norm_magnitude (x y z : R) :
  linalg_norm (x, y, z) = magnitude x y z.
Proof. reflexivity. Qed.

(** A series that ends at the position (0.1, 0.6, 0.8): at rest at time
    0, accelerations (0.4, 2.4, 3.2) at time 1. *)
Definition drifted : DataFrame float :=
  [ mkSample 0 0 0 0;
    mkSample 1 0x1.999999999999ap-2 0x1.3333333333333p+1 0x1.999999999999ap+1
  ]%float.

(** C9, as stated, fails on the code in binary64 when [np.linalg.norm]
    runs on a fused multiply-add kernel.  On the series [drifted] the final
    position is (0.1, 0.6, 0.8); [final_displacement], computed elementwise
    as [sqrt(px**2 + py**2 + pz**2)], is 1.0049875621120892, while
    [drift_magnitude] and [return_error], computed by [np.linalg.norm], are
    1.004987562112089. *)
Lemma drift_metrics_differ :
  match
    calculate_drift (AF:=Float64Fused)
      (calculate_position (AF:=Float64Fused) (mkConfig true false 0%float 5) drifted)
      (Some 1%float)
  with
  | Ok m =>
      final_position m
      = (0x1.999999999999ap-4, 0x1.3333333333333p-1, 0x1.999999999999ap-1)%float /\
      final_displacement m = 0x1.0146dd68287f4p+0%float /\
      drift_magnitude m = 0x1.0146dd68287f3p+0%float /\
      option_map (@return_error float) (with_known m)
      = Some 0x1.0146dd68287f3p+0%float /\
      final_displacement m <> drift_magnitude m
  | Raise _ => False
  end.
Proof.
  vm_compute; repeat split.
  intros H.
  apply (f_equal (fun x => PrimFloat.eqb x 0x1.0146dd68287f3p+0)) in H.
  vm_compute in H; discriminate H.
Qed.

(** C9, amended.  For the frame the integrator returns on a non-empty
    series, with or without a known distance, [calculate_drift] succeeds;
    [final_position] is the last row of the position columns;
    [final_displacement] is the square root of the sum of its squares
    computed elementwise, [drift_magnitude] is the square root of its dot
    product with itself computed by the library kernel, and [return_error]
    (when present) is [drift_magnitude] (any arithmetic, any kernel).  In
    exact arithmetic the three are the same number, the Euclidean norm of
    the final position. *)
Theorem drift_metrics_coincide :
  (forall (F : Type) (AF : Arith F) (cfg : config F) (data : DataFrame F)
          (known : option F),
     data <> [] ->
     exists m : drift_metrics F,
       calculate_drift (calculate_position cfg data) known = Ok m /\
       final_position m
       = position_at (pd_arrays (calculate_position cfg data)) (length data - 1) /\
       (let '(x, y, z) := final_position m in
        final_displacement m = fsqrt (fadd (fadd (fmul x x) (fmul y y)) (fmul z z)) /\
        drift_magnitude m = fsqrt (ddot (x, y, z) (x, y, z))) /\
       (forall kd, known = Some kd ->
          exists k, with_known m = Some k /\ return_error k = drift_magnitude m)) /\
  (forall (cfg : config R) (data : DataFrame R) (known : option R),
     data <> [] ->
     exists m : drift_metrics R,
       calculate_drift (calculate_position cfg data) known = Ok m /\
       final_position m
       = position_at (pd_arrays (calculate_position cfg data)) (length data - 1) /\
       (let '(x, y, z) := final_position m in
        drift_magnitude m = sqrt (x * x + y * y + z * z)%R) /\
       final_displacement m = drift_magnitude m /\
       (forall kd, known = Some kd ->
          exists k, with_known m = Some k /\ return_error k = drift_magnitude m)).
Proof.
  split.
  - intros F AF cfg data known Hne.
    destruct (calculate_drift_integrated cfg known Hne) as (fx & fy & fz & Hp & H).
    cbv zeta in Hp, H; rewrite H, Hp.
    eexists; split; [reflexivity|].
    cbn [final_position drift_magnitude final_displacement with_known].
    split; [reflexivity|]; split; [split; reflexivity|].
    intros kd ->; eexists; split; reflexivity.
  - intros cfg data known Hne.
    destruct (calculate_drift_integrated cfg known Hne) as (fx & fy & fz & Hp & H).
    cbv zeta in Hp, H; rewrite H, Hp.
    eexists; split; [reflexivity|].
    cbn [final_position drift_magnitude final_displacement with_known].
    split; [reflexivity|]; split; [reflexivity|]; split; [reflexivity|].
    intros kd ->; eexists; split; reflexivity.
Qed.

Lemma drift_metrics_coincide_witness :
  exists m : drift_metrics R,
    calculate_drift (calculate_position plain_mps2 scenario) (Some 1%R) = Ok m /\
    final_displacement m = drift_magnitude m.
Proof.
  destruct (proj2 drift_metrics_coincide plain_mps2 scenario (Some 1%R))
    as (m & Hm & _ & _ & Hd & _).
  - discriminate.
  - exists m; split; [exact Hm | exact Hd].
Defined.

(** ** A known distance of zero *)

Lemma SFeqb_finite_refl s m e :
  SFeqb (S754_finite s m e) (S754_finite s m e) = true.
Proof.
  unfold SFeqb, SFcompare.
  destruct s; rewrite Z.compare_refl, Pos.compare_cont_refl; reflexivity.
Qed.

(** [abs(x - 0) / 0 * 100] in binary64: NaN when [x] is zero or NaN,
    plus infinity otherwise. *)
Lemma percent_of_zero_distance (x : float) :
  (abs (x - 0) / 0 * 100)%float
  = if (is_nan x || (x =? 0)%float)%bool then nan else infinity.
Proof.
  apply Prim2SF_inj.
  unfold is_nan; rewrite !FloatAxioms.eqb_spec.
  rewrite mul_spec, div_spec, abs_spec, sub_spec.
  change (Prim2SF 0) with (S754_zero false).
  destruct (Prim2SF x) as [[|]|[|]| |s m e]; try reflexivity.
  rewrite SFeqb_finite_refl; destruct s; reflexivity.
Qed.

(** The percentage entry of the metrics, when the call returned one. *)
Definition percent_entry {F : Type} (r : result (drift_metrics F)) : option F :=
  match r with
  | Ok m => option_map (@max_displacement_error_percent F) (with_known m)
  | Raise _ => None
  end.

(** C6, as stated, fails on the code: with a known distance of 0 the call
    raises nothing and the percentage entry is plus infinity. *)
Lemma zero_known_distance_returns :
  percent_entry
    (calculate_drift (calculate_position plain_mps2 (scenario (F:=float)))
       (Some 0%float))
  = Some infinity.
Proof. vm_compute; reflexivity. Qed.

(** C6, amended.  With a known distance of 0 the drift evaluator raises no
    error on a completed series: it returns the metrics, and the
    percentage entry is the binary64 value of [abs(max - 0) / 0 * 100],
    plus infinity when the maximum displacement is a non-zero number and
    NaN when it is zero or NaN. *)
Theorem zero_known_distance_percent :
  forall (cfg : config float) (data : DataFrame float),
    data <> [] ->
    exists (m : drift_metrics float) (k : known_metrics float),
      calculate_drift (calculate_position cfg data) (Some 0%float) = Ok m /\
      with_known m = Some k /\
      known_distance k = 0%float /\
      max_displacement k
      = series_max (displacement (calculate_position cfg data)) /\
      max_displacement_error_percent k
      = if (is_nan (max_displacement k) || (max_displacement k =? 0)%float)%bool
        then nan else infinity.
Proof.
  intros cfg data Hne.
  destruct (calculate_drift_integrated cfg (Some 0%float) Hne)
    as (fx & fy & fz & _ & H).
  cbv zeta in H; rewrite H.
  eexists; eexists; split; [reflexivity|]; cbn [with_known].
  split; [reflexivity|].
  cbn [known_distance max_displacement max_displacement_error_percent].
  split; [reflexivity|]; split; [reflexivity|].
  apply percent_of_zero_distance.
Qed.

Lemma zero_known_distance_percent_witness :
  exists (m : drift_metrics float),
    calculate_drift (calculate_position plain_mps2 (scenario (F:=float)))
      (Some 0%float) = Ok m.
Proof.
  destruct (@zero_known_distance_percent plain_mps2 (scenario (F:=float)))
    as (m & k & Hm & _).
  - discriminate.
  - exists m; exact Hm.
Defined.

(** * Properties of calibration *)

Section CalibrationFacts.

Context {F : Type} {AF : Arith F}.

Lemma map_combine_self {A B C : Type} (f : A -> B) (g : A -> B -> C) (l : list A) :
  map (fun ab => g (fst ab) (snd ab)) (combine l (map f l))
  = map (fun a => g a (f a)) l.
Proof. induction l as [|a l IH]; simpl; [|rewrite IH]; reflexivity. Qed.

(** The three array passes of the [try] block, seen sample by sample. *)
Lemma apply_calibration_body_rows (cfg : config F) (data : DataFrame F) b T :
  apply_calibration_body cfg data (mkCal (Some b) (Some T))
  = Ok (map (fun s => with_acc s (apply_sample (UNITS_IN_MPS2 cfg) b T (acc_of s)))
          data).
Proof.
  unfold apply_calibration_body, apply_sample; cbn [lookup bias transform_matrix].
  f_equal.
  destruct (UNITS_IN_MPS2 cfg); rewrite !map_map;
    apply (map_combine_self _ (fun s v => with_acc s v)).
Qed.

Lemma apply_calibration_body_missing (cfg : config F) (data : DataFrame F) p :
  bias p = None \/ transform_matrix p = None ->
  apply_calibration_body cfg data p = Raise KeyError.
Proof.
  unfold apply_calibration_body; intros [H|H]; rewrite H; cbn [lookup];
    [|destruct (bias p)]; reflexivity.
Qed.

(** The matrix form of [calculate_params.py] against the per-sample form of
    [position.py], when the matrix-matrix kernel and the matrix-vector
    kernel round a dot product alike. *)
Lemma calibrate_points_rows
    (kernels_agree : forall a b : vec3 F, gemm_dot a b = gemv_dot b a)
    (b : vec3 F) (T : mat3 F) (pts : list (vec3 F)) :
  calibrate_points b T pts = map (fun x => mat_vec T (vsub x b)) pts.
Proof.
  unfold calibrate_points; rewrite map_map; apply map_ext; intros x.
  destruct T as [[[[t00 t01] t02] [[t10 t11] t12]] [[t20 t21] t22]].
  unfold row_mat, mat_vec, transpose.
  rewrite !kernels_agree; reflexivity.
Qed.

Lemma acc_of_with_acc (s : sample F) (v : vec3 F) : acc_of (with_acc s v) = v.
Proof. destruct v as [[x y] z]; reflexivity. Qed.

Lemma apply_calibration_points
    (kernels_agree : forall a b : vec3 F, gemm_dot a b = gemv_dot b a)
    (cfg : config F) (data : DataFrame F) (b : vec3 F) (T : mat3 F) :
  UNITS_IN_MPS2 cfg = false ->
  map acc_of (apply_calibration cfg data (Some (mkCal (Some b) (Some T))))
  = calibrate_points b T (map acc_of data).
Proof.
  intros Hu; unfold apply_calibration.
  rewrite apply_calibration_body_rows, Hu, (calibrate_points_rows kernels_agree).
  rewrite !map_map; apply map_ext; intros s.
  rewrite acc_of_with_acc; reflexivity.
Qed.

End CalibrationFacts.

(** Multiplication commutes in binary64. *)
Lemma SFmul_comm prec emax x y : SFmul prec emax x y = SFmul prec emax y x.
Proof.
  destruct x as [sx|sx| |sx mx ex], y as [sy|sy| |sy my ey]; simpl;
    try reflexivity; try (rewrite xorb_comm; reflexivity).
  rewrite xorb_comm, Pos.mul_comm, Z.add_comm; reflexivity.
Qed.

Lemma float_mul_comm (x y : float) : (x * y)%float = (y * x)%float.
Proof.
  apply Prim2SF_inj; rewrite !mul_spec; apply SFmul_comm.
Qed.

(** C7, as stated, fails on the code: a parameter dictionary without the
    key ["bias"] makes the body raise [KeyError], and [apply_calibration]
    then returns the raw series. *)
Lemma missing_bias_returns_raw :
  let identity : mat3 float := ((1, 0, 0), (0, 1, 0), (0, 0, 1))%float in
  let params := mkCal None (Some identity) in
  apply_calibration_body plain_mps2 (scenario (F:=float)) params = Raise KeyError /\
  apply_calibration plain_mps2 (scenario (F:=float)) (Some params) = scenario /\
  apply_calibration plain_mps2 (scenario (F:=float)) None = scenario.
Proof. cbv zeta; repeat split; reflexivity. Qed.

(** C7, amended.  [apply_calibration] never raises: it returns the
    calibrated series when the parameters hold both a bias and a transform
    matrix, and a copy of the raw series when there are no parameters or
    when applying them raises (here: a missing key). *)
Theorem apply_calibration_fallback :
  forall (F : Type) (AF : Arith F) (cfg : config F) (data : DataFrame F)
         (params : option (cal_params F)),
    apply_calibration cfg data params =
    match params with
    | Some (mkCal (Some b) (Some T)) =>
        map (fun s => with_acc s (apply_sample (UNITS_IN_MPS2 cfg) b T (acc_of s)))
          data
    | _ => data
    end.
Proof.
  intros F AF cfg data [[[b|] [T|]]|]; unfold apply_calibration;
    try rewrite apply_calibration_body_rows; try reflexivity;
    rewrite apply_calibration_body_missing; cbn; auto.
Qed.

(** The kernels of [Float64] round alike, and so do those of [Exact]. *)
Lemma float_kernels_agree (a b : vec3 float) :
  gemm_dot (Arith:=Float64) a b = gemv_dot (Arith:=Float64) b a.
Proof.
  destruct a as [[a0 a1] a2], b as [[b0 b1] b2].
  cbn [gemm_dot gemv_dot Float64]; unfold dot_in_order.
  rewrite (float_mul_comm a0), (float_mul_comm a1), (float_mul_comm a2).
  reflexivity.
Qed.

Lemma exact_kernels_agree (a b : vec3 R) : gemm_dot a b = gemv_dot b a.
Proof.
  destruct a as [[a0 a1] a2], b as [[b0 b1] b2].
  cbn [gemm_dot gemv_dot Exact]; unfold dot_in_order; ring.
Qed.

(** A transform, and three points in the units of the bias. *)
Definition sheared : mat3 float :=
  ((0x1.999999999999ap-4, 1, 0), (0, 1, 0), (0, 0, 1))%float.

Definition three_points : DataFrame float :=
  [ mkSample 0 0x1.999999999999ap-4 0x1.999999999999ap-4 0x1.999999999999ap-4;
    mkSample 1 0x1.999999999999ap-3 0x1.999999999999ap-3 0x1.999999999999ap-3;
    mkSample 2 0x1.3333333333333p-2 0x1.3333333333333p-2 0x1.3333333333333p-2
  ]%float.

(** C10, as stated, fails on the code in binary64 when the matrix product
    and the matrix-vector product run on fused multiply-add kernels that
    accumulate in different orders.  With bias 0 and the transform
    [[0.1, 1, 0], [0, 1, 0], [0, 0, 1]], the points (0.1, 0.1, 0.1),
    (0.2, 0.2, 0.2), (0.3, 0.3, 0.3) come out of the matrix form of
    [calibrate_accelerometer] with first components 0.11000000000000001,
    0.22000000000000003, 0.32999999999999996 and out of the loop of
    [apply_calibration] with 0.11, 0.22, 0.33. *)
Lemma calibration_forms_differ :
  let b : vec3 float := (0, 0, 0)%float in
  let cfg : config float := mkConfig false false 0%float 5 in
  map (fun p => fst (fst p))
    (calibrate_points (AF:=Float64Fused) b sheared (map acc_of three_points))
  = [0x1.c28f5c28f5c2ap-4; 0x1.c28f5c28f5c2ap-3; 0x1.51eb851eb851ep-2]%float /\
  map (@x_acc float)
    (apply_calibration (AF:=Float64Fused) cfg three_points
       (Some (mkCal (Some b) (Some sheared))))
  = [0x1.c28f5c28f5c29p-4; 0x1.c28f5c28f5c29p-3; 0x1.51eb851eb851fp-2]%float /\
  map acc_of
    (apply_calibration (AF:=Float64Fused) cfg three_points
       (Some (mkCal (Some b) (Some sheared))))
  <> calibrate_points (AF:=Float64Fused) b sheared (map acc_of three_points).
Proof.
  cbv zeta; split; [vm_compute; reflexivity|]; split; [vm_compute; reflexivity|].
  intros H.
  apply (f_equal (fun l => match l with
                           | (x, _, _) :: _ => PrimFloat.eqb x 0x1.c28f5c28f5c29p-4
                           | [] => false
                           end)) in H.
  vm_compute in H; discriminate H.
Qed.

(** C10, amended.  The row-wise matrix form [(points - bias) . transform^T]
    of [calibrate_accelerometer] and the per-sample loop
    [transform . (x - bias)] of [apply_calibration] give the same calibrated
    vectors for every bias, transform and point set in the same units
    whenever the kernel of the matrix product and the kernel of the
    matrix-vector product round a dot product alike (any arithmetic); in
    particular in exact arithmetic. *)
Theorem calibration_forms_agree :
  (forall (F : Type) (AF : Arith F),
     (forall a b : vec3 F, gemm_dot a b = gemv_dot b a) ->
     forall (b : vec3 F) (T : mat3 F),
       (forall pts : list (vec3 F),
          calibrate_points b T pts = map (fun x => mat_vec T (vsub x b)) pts) /\
       (forall (cfg : config F) (data : DataFrame F),
          UNITS_IN_MPS2 cfg = false ->
          map acc_of (apply_calibration cfg data (Some (mkCal (Some b) (Some T))))
          = calibrate_points b T (map acc_of data))) /\
  (forall (b : vec3 R) (T : mat3 R) (pts : list (vec3 R)),
     calibrate_points b T pts = map (fun x => mat_vec T (vsub x b)) pts) /\
  (forall (b : vec3 R) (T : mat3 R) (data : DataFrame R),
     map acc_of
       (apply_calibration (mkConfig false false 0%R 5) data
          (Some (mkCal (Some b) (Some T))))
     = calibrate_points b T (map acc_of data)).
Proof.
  split; [|split].
  - intros F AF Hk b T; split.
    + intros pts; apply (calibrate_points_rows Hk).
    + intros cfg data Hu; apply (apply_calibration_points Hk); exact Hu.
  - intros; apply (calibrate_points_rows (AF:=Exact) exact_kernels_agree).
  - intros; apply (apply_calibration_points (AF:=Exact) exact_kernels_agree).
    reflexivity.
Qed.

(** With the kernels of [Float64] the two forms agree in binary64. *)
Lemma calibration_forms_agree_witness :
  calibrate_points (AF:=Float64) (0, 0, 0)%float sheared (map acc_of three_points)
  = map (fun x => mat_vec (AF:=Float64) sheared (vsub x (0, 0, 0)%float))
      (map acc_of three_points).
Proof.
  exact (proj1 (proj1 calibration_forms_agree float Float64 float_kernels_agree
                  (0, 0, 0)%float sheared)
           (map acc_of three_points)).
Defined.

(** ** Units and linearity of calibration *)

Definition identity3 {F : Type} {AF : Arith F} : mat3 F :=
  ((fone, fzero, fzero), (fzero, fone, fzero), (fzero, fzero, fone)).

Definition float_vec_eqb (a b : vec3 float) : bool :=
  let '(a0, a1, a2) := a in
  let '(b0, b1, b2) := b in
  (PrimFloat.eqb a0 b0 && PrimFloat.eqb a1 b1 && PrimFloat.eqb a2 b2)%bool.

Lemma float_vec_eqb_false (a b : vec3 float) :
  float_vec_eqb a a = true -> float_vec_eqb a b = false -> a <> b.
Proof. intros Ha Hb ->; congruence. Qed.

(** C8, as stated, fails on the code.  With a non-zero bias the
    calibration of a sum is not the sum of the calibrations, in either
    unit; and in binary64 dividing by 9.81 and multiplying back does not
    return the input: the identity calibration maps 11 m/s^2 to
    11.000000000000002. *)
Lemma apply_not_linear :
  let b : vec3 float := (1, 0, 0)%float in
  let o : vec3 float := (0, 0, 0)%float in
  apply_sample false b identity3 (vadd o o)
    <> vadd (apply_sample false b identity3 o) (apply_sample false b identity3 o) /\
  apply_sample true b identity3 (vadd o o)
    <> vadd (apply_sample true b identity3 o) (apply_sample true b identity3 o) /\
  apply_sample true o identity3 (11, 0, 0)%float
    = (0x1.6000000000001p+3, 0, 0)%float /\
  apply_sample true o identity3 (11, 0, 0)%float <> (11, 0, 0)%float.
Proof.
  cbv zeta; split; [|split; [|split]];
    try (apply float_vec_eqb_false; vm_compute; reflexivity).
  vm_compute; reflexivity.
Qed.

Section ExactCalibration.

Local Open Scope R_scope.

Ltac vec_ring :=
  repeat match goal with
    | M : mat3 R |- _ => destruct M as [[[[? ?] ?] [[? ?] ?]] [[? ?] ?]]
    | v : vec3 R |- _ => destruct v as [[? ?] ?]
    end;
  cbn; apply triple_eq; cbn; try (field; lra); try ring.

(** The unit round trip cancels in exact arithmetic. *)
Lemma apply_sample_mps2_exact (b : vec3 R) (T : mat3 R) (x : vec3 R) :
  apply_sample true b T x = vsub (mat_vec T x) (vscale (mat_vec T b) fgravity).
Proof. unfold apply_sample; vec_ring. Qed.

Lemma apply_sample_affine (units : bool) (b : vec3 R) (T : mat3 R) (x y : vec3 R) :
  vsub (apply_sample units b T x) (apply_sample units b T y)
  = mat_vec T (vsub x y).
Proof. destruct units; unfold apply_sample; vec_ring. Qed.

Lemma apply_sample_identity (units : bool) (x : vec3 R) :
  apply_sample units (0, 0, 0) identity3 x = x.
Proof. destruct units; unfold apply_sample; vec_ring. Qed.

Lemma apply_sample_additive_iff (units : bool) (b : vec3 R) (T : mat3 R) :
  (forall x y, apply_sample units b T (vadd x y)
               = vadd (apply_sample units b T x) (apply_sample units b T y))
  <-> mat_vec T b = (0, 0, 0).
Proof.
  split.
  - intros H; specialize (H (0, 0, 0) (0, 0, 0)).
    destruct T as [[[[t00 t01] t02] [[t10 t11] t12]] [[t20 t21] t22]].
    destruct b as [[b0 b1] b2].
    destruct units; unfold apply_sample in H; cbn in H;
      injection H as H0 H1 H2; cbn; apply triple_eq; lra.
  - intros H x y.
    destruct T as [[[[t00 t01] t02] [[t10 t11] t12]] [[t20 t21] t22]].
    destruct b as [[b0 b1] b2], x as [[x0 x1] x2], y as [[y0 y1] y2].
    cbn in H; injection H as H0 H1 H2.
    destruct units; unfold apply_sample; cbn; apply triple_eq; lra.
Qed.

End ExactCalibration.

(** C8, amended.  Calibration works in g: a sample [x] in m/s^2 is mapped
    to [9.81 * (transform . (x / 9.81 - bias))] and a sample in g to
    [transform . (x - bias)], the first being the second conjugated by the
    unit conversion.  In exact arithmetic the division by 9.81 and the
    multiplication by 9.81 cancel, so the result for m/s^2 input is
    [transform . x - 9.81 * (transform . bias)] and the identity
    calibration returns its input; and [apply] is affine in its input,
    [apply x - apply y = transform . (x - y)]: it is additive exactly when
    [transform . bias = 0]. *)
Theorem apply_units_affine :
  forall (cfg : config R) (data : DataFrame R) (b : vec3 R) (T : mat3 R)
         (units : bool) (x y : vec3 R),
    apply_calibration cfg data (Some (mkCal (Some b) (Some T)))
    = map (fun s => with_acc s (apply_sample (UNITS_IN_MPS2 cfg) b T (acc_of s)))
        data /\
    apply_sample true b T x
    = vscale (mat_vec T (vsub (vdiv x fgravity) b)) fgravity /\
    apply_sample false b T x = mat_vec T (vsub x b) /\
    apply_sample true b T x
    = vscale (apply_sample false b T (vdiv x fgravity)) fgravity /\
    apply_sample true b T x
    = vsub (mat_vec T x) (vscale (mat_vec T b) fgravity) /\
    apply_sample units (0, 0, 0)%R identity3 x = x /\
    vsub (apply_sample units b T x) (apply_sample units b T y)
    = mat_vec T (vsub x y) /\
    ((forall u v, apply_sample units b T (vadd u v)
                  = vadd (apply_sample units b T u) (apply_sample units b T v))
     <-> mat_vec T b = (0, 0, 0)%R).
Proof.
  intros cfg data b T units x y.
  split; [unfold apply_calibration; rewrite apply_calibration_body_rows; reflexivity|].
  split; [reflexivity|]; split; [reflexivity|]; split; [reflexivity|].
  split; [apply apply_sample_mps2_exact|].
  split; [apply apply_sample_identity|].
  split; [apply apply_sample_affine|].
  apply apply_sample_additive_iff.
Qed.

(** * Properties of the ellipsoid fit *)

(** The fit has no failure of its own: an exception is one a
    [numpy.linalg] call raised, and when the three calls return, the fit
    returns the centre, the radii [1 / sqrt(eigenvalue)] and the
    eigenvectors. *)
Lemma fit_ellipsoid_cases {F : Type} {AF : Arith F} (L : linalg F) (X Y Z : list F) :
  let D := design_matrix X Y Z in
  let b := map (fun _ => fone) X in
  match fit_ellipsoid L X Y Z with
  | Raise e =>
      lstsq L D b = Raise e \/
      (exists u, lstsq L D b = Ok u /\
         let A := quadric_matrix u in
         (solve L (mmap fopp (block33 A)) (column3 A) = Raise e \/
          exists center, solve L (mmap fopp (block33 A)) (column3 A) = Ok center /\
            let R := mat_mul (mat_mul (translation center) A)
                       (transpose_m (translation center)) in
            eig L (mmap (fun x => fdiv x (fopp (mget R 3 3))) (block33 R)) = Raise e))
  | Ok (center, radii, evecs) =>
      exists u evals, lstsq L D b = Ok u /\
        let A := quadric_matrix u in
        solve L (mmap fopp (block33 A)) (column3 A) = Ok center /\
        let R := mat_mul (mat_mul (translation center) A)
                   (transpose_m (translation center)) in
        eig L (mmap (fun x => fdiv x (fopp (mget R 3 3))) (block33 R))
        = Ok (evals, evecs) /\
        radii = vmap (fun ev => fdiv fone (fsqrt ev)) evals
  end.
Proof.
  cbv zeta; unfold fit_ellipsoid.
  destruct (lstsq L (design_matrix X Y Z) (map (fun _ => fone) X)) as [u|e] eqn:Hl;
    [|left; reflexivity].
  destruct (solve L (mmap fopp (block33 (quadric_matrix u)))
              (column3 (quadric_matrix u))) as [center|e] eqn:Hs;
    [|right; exists u; split; [reflexivity | left; exact Hs]].
  cbv zeta.
  destruct (eig L _) as [[evals evecs]|e] eqn:He.
  - exists u, evals; repeat split; assumption || reflexivity.
  - right; exists u; split; [reflexivity|].
    right; exists center; split; [exact Hs | exact He].
Qed.

(** In binary64 a negative eigenvalue gives a NaN radius and a zero
    eigenvalue an infinite one. *)
Lemma negative_eigenvalue_radius (ev : float) :
  (ev <? 0)%float = true -> (1 / PrimFloat.sqrt ev)%float = nan.
Proof.
  intros H; apply Prim2SF_inj.
  rewrite ltb_spec in H; rewrite div_spec, sqrt_spec.
  change (Prim2SF 0) with (S754_zero false) in H.
  destruct (Prim2SF ev) as [[|]|[|]| |[|] m e]; try discriminate H; reflexivity.
Qed.

Lemma zero_eigenvalue_radius : (1 / PrimFloat.sqrt 0)%float = infinity.
Proof. reflexivity. Qed.

(** ** A model of numpy at given answers

    Each routine returns the proposed answer when that answer is exactly
    right for the question asked, and raises otherwise: a least-squares
    answer [u] with zero residual that lies in the row space of the design
    matrix (hence the minimum-norm minimiser), a solution [c] of the linear
    system, eigenpairs of the matrix. *)

Definition answers_lstsq (u w : list float) (D : matrix float) (b : list float)
  : result (list float) :=
  if float_list_eqb (map (fun r => dot_list r u) D) b
     && float_list_eqb (map (fun j => dot_list (col D j) w) (seq 0 (ncols D))) u
  then Ok u else Raise LinAlgError.

Definition answers_solve (c : vec3 float) (M : mat3 float) (v : vec3 float)
  : result (vec3 float) :=
  if float_vec_eqb (mat_vec M c) v then Ok c else Raise LinAlgError.

(** Column [j] of a 3x3 matrix. *)
Definition column_of (M : mat3 float) (j : nat) : vec3 float :=
  let '((a, b, c), (d, e, f), (g, h, i)) := M in
  match j with
  | 0 => (a, d, g)
  | 1 => (b, e, h)
  | _ => (c, f, i)
  end.

Definition answers_eig (evals : vec3 float) (evecs : mat3 float) (M : mat3 float)
  : result (vec3 float * mat3 float) :=
  let '(l0, l1, l2) := evals in
  if float_vec_eqb (mat_vec M (column_of evecs 0)) (vscale (column_of evecs 0) l0)
     && float_vec_eqb (mat_vec M (column_of evecs 1)) (vscale (column_of evecs 1) l1)
     && float_vec_eqb (mat_vec M (column_of evecs 2)) (vscale (column_of evecs 2) l2)
     && PrimFloat.eqb (dot3 (column_of evecs 0) (column_of evecs 0)) 1
     && PrimFloat.eqb (dot3 (column_of evecs 1) (column_of evecs 1)) 1
     && PrimFloat.eqb (dot3 (column_of evecs 2) (column_of evecs 2)) 1
  then Ok (evals, evecs) else Raise LinAlgError.

(** Points with integer coordinates, read in either arithmetic. *)
Definition of_int {F : Type} {AF : Arith F} (z : Z) : F :=
  match z with
  | Z0 => fzero
  | Zpos p => fof_nat (Pos.to_nat p)
  | Zneg p => fopp (fof_nat (Pos.to_nat p))
  end.

Definition xs_of {F : Type} {AF : Arith F} (pts : list (Z * Z * Z)) : list F :=
  map (fun p => of_int (fst (fst p))) pts.
Definition ys_of {F : Type} {AF : Arith F} (pts : list (Z * Z * Z)) : list F :=
  map (fun p => of_int (snd (fst p))) pts.
Definition zs_of {F : Type} {AF : Arith F} (pts : list (Z * Z * Z)) : list F :=
  map (fun p => of_int (snd p)) pts.

(** Twelve points of the hyperboloid [x^2 + y^2 / 4 - z^2 = 1]. *)
Definition hyperboloid : list (Z * Z * Z) :=
  [ (1, 0, 0); (-1, 0, 0); (0, 2, 0); (0, -2, 0);
    (1, 2, 1); (1, 2, -1); (1, -2, 1); (-1, 2, 1);
    (1, -2, -1); (-1, 2, -1); (-1, -2, 1); (-1, -2, -1) ]%Z.

Definition numpy_on_hyperboloid : linalg float :=
  mkLinalg
    (answers_lstsq [1; 0.25; -1; 0; 0; 0; 0; 0; 0]%float
       [1; 1; 0.53125; 0.53125;
        -0.125; -0.125; -0.125; -0.125; -0.125; -0.125; -0.125; -0.125]%float)
    (answers_solve (0, 0, 0)%float)
    (answers_eig (1, 0.25, -1)%float identity3).

(** The six vertices of the octahedron, on the unit sphere. *)
Definition octahedron : list (Z * Z * Z) :=
  [ (1, 0, 0); (-1, 0, 0); (0, 1, 0); (0, -1, 0); (0, 0, 1); (0, 0, -1) ]%Z.

Definition numpy_on_octahedron : linalg float :=
  mkLinalg
    (answers_lstsq [1; 1; 1; 0; 0; 0; 0; 0; 0]%float
       [0.5; 0.5; 0.5; 0.5; 0.5; 0.5]%float)
    (answers_solve (0, 0, 0)%float)
    (answers_eig (1, 1, 1)%float identity3).

(** The design matrix of the hyperboloid points has rank 9: the quadric
    [x^2 + y^2 / 4 - z^2 = 1] is the only one through them, hence the
    only least-squares answer. *)
Lemma hyperboloid_quadric_unique (u : list R) :
  length u = 9 ->
  map (fun r => dot_list r u)
    (design_matrix (xs_of hyperboloid) (ys_of hyperboloid) (zs_of hyperboloid))
  = map (fun _ => 1%R) hyperboloid ->
  u = [1; 1 / 4; -1; 0; 0; 0; 0; 0; 0]%R.
Proof.
  intros Hlen H.
  destruct u as [|u0 [|u1 [|u2 [|u3 [|u4 [|u5 [|u6 [|u7 [|u8 [|? ?]]]]]]]]]];
    try discriminate Hlen.
  cbn in H.
  injection H as H0 H1 H2 H3 H4 H5 H6 H7 H8 H9 H10 H11.
  assert (E0 : u0 = 1%R) by lra.
  assert (E1 : u1 = (1 / 4)%R) by lra.
  assert (E2 : u2 = (-1)%R) by lra.
  assert (E3 : u3 = 0%R) by lra.
  assert (E4 : u4 = 0%R) by lra.
  assert (E5 : u5 = 0%R) by lra.
  assert (E6 : u6 = 0%R) by lra.
  assert (E7 : u7 = 0%R) by lra.
  assert (E8 : u8 = 0%R) by lra.
  subst; reflexivity.
Qed.

(** What a fit returned, with NaN radii made visible. *)
Definition radii_of (r : result (vec3 float * vec3 float * mat3 float))
  : option (vec3 float) :=
  match r with
  | Ok (_, radii, _) => Some radii
  | Raise _ => None
  end.

Definition third_is_nan (o : option (vec3 float)) : bool :=
  match o with
  | Some (_, _, r2) => PrimFloat.is_nan r2
  | None => false
  end.

(** C5, as stated, fails on the code.  On twelve points of a hyperboloid
    the quadratic form has the eigenvalues 1, 1/4 and -1 and the fit returns
    the radii (1, 2, NaN); on six points, fewer than the nine the fit needs, it
    returns the unit sphere.  No error is raised in either case. *)
Lemma fit_ellipsoid_accepts_degenerate :
  (length hyperboloid = 12 /\
   radii_of
     (fit_ellipsoid numpy_on_hyperboloid
        (xs_of hyperboloid) (ys_of hyperboloid) (zs_of hyperboloid))
   = Some (1, 2, nan)%float /\
   third_is_nan
     (radii_of
        (fit_ellipsoid numpy_on_hyperboloid
           (xs_of hyperboloid) (ys_of hyperboloid) (zs_of hyperboloid)))
   = true) /\
  (length octahedron = 6 /\
   radii_of
     (fit_ellipsoid numpy_on_octahedron
        (xs_of octahedron) (ys_of octahedron) (zs_of octahedron))
   = Some (1, 1, 1)%float).
Proof. repeat split; vm_compute; reflexivity. Qed.

(** C5, amended.  The ellipsoid fit makes no degeneracy check of its own:
    it fails exactly when one of its three [numpy.linalg] calls raises
    (such as [LinAlgError] from [solve] on a singular matrix), with that
    exception; when they return, the fit returns the centre, the radii
    [1 / sqrt(eigenvalue)] and the eigenvectors, whatever the number and
    position of the points and the sign of the eigenvalues.  In binary64 a
    negative eigenvalue gives a NaN radius and a zero eigenvalue an
    infinite one. *)
Theorem fit_ellipsoid_unchecked :
  (forall (F : Type) (AF : Arith F) (L : linalg F) (X Y Z : list F),
     let D := design_matrix X Y Z in
     let b := map (fun _ => fone) X in
     match fit_ellipsoid L X Y Z with
     | Raise e =>
         lstsq L D b = Raise e \/
         (exists u, lstsq L D b = Ok u /\
            let A := quadric_matrix u in
            (solve L (mmap fopp (block33 A)) (column3 A) = Raise e \/
             exists center,
               solve L (mmap fopp (block33 A)) (column3 A) = Ok center /\
               let R := mat_mul (mat_mul (translation center) A)
                          (transpose_m (translation center)) in
               eig L (mmap (fun x => fdiv x (fopp (mget R 3 3))) (block33 R))
               = Raise e))
     | Ok (center, radii, evecs) =>
         exists u evals, lstsq L D b = Ok u /\
           let A := quadric_matrix u in
           solve L (mmap fopp (block33 A)) (column3 A) = Ok center /\
           let R := mat_mul (mat_mul (translation center) A)
                      (transpose_m (translation center)) in
           eig L (mmap (fun x => fdiv x (fopp (mget R 3 3))) (block33 R))
           = Ok (evals, evecs) /\
           radii = vmap (fun ev => fdiv fone (fsqrt ev)) evals
     end) /\
  (forall ev : float,
     (ev <? 0)%float = true -> fdiv fone (fsqrt ev) = nan) /\
  fdiv fone (fsqrt 0%float) = infinity.
Proof.
  split; [|split].
  - intros; apply fit_ellipsoid_cases.
  - intros ev H; apply negative_eigenvalue_radius, H.
  - apply zero_eigenvalue_radius.
Qed.

(** * Further properties of the pipeline *)

Lemma get_map_zero {A : Type} (f : A -> R) (l : list A) (i : nat) :
  (forall a, In a l -> f a = 0%R) -> get (map f l) i = 0%R.
Proof.
  intros H; unfold get.
  destruct (Nat.lt_ge_cases i (length (map f l))) as [Hlt|Hge].
  - apply (Forall_nth (fun x => x = 0%R) (map f l));
      [apply Forall_map, Forall_forall; exact H | exact Hlt].
  - apply nth_overflow; exact Hge.
Qed.

(** Zero acceleration: in plain mode, in exact arithmetic, a series whose
    acceleration is zero on the three axes at every sample has velocity
    and position zero at every index, whatever the time stamps. *)
Theorem zero_acceleration_rest :
  forall (cfg : config R) (data : DataFrame R),
    APPLY_ZUPT cfg = false ->
    (forall s, In s data -> x_acc s = 0%R /\ y_acc s = 0%R /\ z_acc s = 0%R) ->
    forall i, i < length data ->
      let st := pd_arrays (calculate_position cfg data) in
      velocity_at st i = zero3 /\ position_at st i = zero3.
Proof.
  intros cfg data Hz Hacc i; induction i as [|k IH]; intros Hi st.
  - destruct (plain_boundary cfg data Hz) as (_ & _ & _ & Hv & Hp); auto.
  - destruct (IH ltac:(lia)) as [Vk Pk]; fold st in Vk, Pk.
    assert (Hr : 1 <= S k < length data) by lia.
    destruct (plain_rules cfg data Hz Hr) as [(Hx & Hy & Hzz) (Px & Py & Pz)].
    fold st in Hx, Hy, Hzz, Px, Py, Pz.
    unfold velocity_rule in Hx, Hy, Hzz; unfold position_rule in Px, Py, Pz.
    replace (nth (S k) (@nil bool) false) with false in * by reflexivity.
    cbn [negb] in *.
    replace (S k - 1) with k in * by lia.
    unfold velocity_at, position_at, zero3 in Vk, Pk.
    injection Vk as Vx Vy Vz; injection Pk as Qx Qy Qz.
    assert (Z0 : forall (c : sample R -> R) j,
               (forall s, In s data -> c s = 0%R) ->
               get (acc_mps2 cfg c data) j = 0%R).
    { intros c j Hc; unfold acc_mps2; apply get_map_zero.
      intros s Hs; unfold to_mps2; rewrite (Hc s Hs).
      destruct (UNITS_IN_MPS2 cfg); cbn; lra. }
    rewrite !(Z0 (@x_acc R)) in Hx by (intros s Hs; apply (Hacc s Hs)).
    rewrite !(Z0 (@y_acc R)) in Hy by (intros s Hs; apply (Hacc s Hs)).
    rewrite !(Z0 (@z_acc R)) in Hzz by (intros s Hs; apply (Hacc s Hs)).
    rewrite Vx in Hx; rewrite Vy in Hy; rewrite Vz in Hzz.
    cbn [fadd fmul fhalf fzero Exact] in Hx, Hy, Hzz.
    assert (Ex : get (vx st) (S k) = 0%R) by (rewrite Hx; lra).
    assert (Ey : get (vy st) (S k) = 0%R) by (rewrite Hy; lra).
    assert (Ez : get (vz st) (S k) = 0%R) by (rewrite Hzz; lra).
    rewrite Qx, Vx, Ex in Px; rewrite Qy, Vy, Ey in Py; rewrite Qz, Vz, Ez in Pz.
    cbn [fadd fmul fhalf fzero Exact] in Px, Py, Pz.
    unfold velocity_at, position_at, zero3.
    rewrite Ex, Ey, Ez, Px, Py, Pz; split; apply triple_eq; cbn; lra.
Qed.

Lemma zero_acceleration_rest_witness :
  let data : DataFrame R := [ mkSample 0 0 0 0; mkSample 1 0 0 0; mkSample 3 0 0 0 ]%R in
  velocity_at (pd_arrays (calculate_position plain_mps2 data)) 2 = zero3.
Proof.
  cbv zeta.
  refine (proj1 (@zero_acceleration_rest plain_mps2 _ eq_refl _ 2 _)).
  - intros s [<-|[<-|[<-|[]]]]; repeat split; reflexivity.
  - cbn; lia.
Defined.

(** Before the window is full the rolling variance is missing and is
    filled with 0: a sample of index [i < window_size - 1] is marked
    stationary exactly when [0 < threshold]. *)
Theorem early_samples_stationary :
  forall (F : Type) (AF : Arith F) (data : DataFrame F) (threshold : F)
         (window_size i : nat),
    i < length data ->
    S i < window_size ->
    nth i (detect_stationary_periods data threshold window_size) false
    = fltb fzero threshold.
Proof.
  intros F AF data thr w i Hi Hw.
  unfold detect_stationary_periods, rolling_var; cbv zeta.
  rewrite !map_map, length_map.
  set (k := fun j : nat => fltb (fillna0 (if S j <? w then None else _)) thr).
  rewrite (nth_indep _ false (k 0)) by (rewrite length_map, length_seq; exact Hi).
  rewrite map_nth, seq_nth by exact Hi.
  unfold k; cbn [Nat.add].
  destruct (Nat.ltb_spec (S i) w) as [_|Hge]; [reflexivity | lia].
Qed.

Lemma early_samples_stationary_witness :
  nth 1 (detect_stationary_periods (scenario (F:=float)) 0x1p-7%float 5) false = true.
Proof.
  refine (@early_samples_stationary float Float64 scenario 0x1p-7%float 5 1 _ _);
    cbn; lia.
Defined.

(** A frame whose final position is the origin has [drift_magnitude] and
    [return_error] equal to 0, in binary64 and in exact arithmetic. *)
Theorem origin_return_error :
  (forall (position : position_data float) (kd : float) (m : drift_metrics float),
     calculate_drift position (Some kd) = Ok m ->
     final_position m = (0, 0, 0)%float ->
     drift_magnitude m = 0%float /\
     exists k, with_known m = Some k /\ return_error k = 0%float) /\
  (forall (position : position_data R) (kd : R) (m : drift_metrics R),
     calculate_drift position (Some kd) = Ok m ->
     final_position m = (0, 0, 0)%R ->
     drift_magnitude m = 0%R /\
     exists k, with_known m = Some k /\ return_error k = 0%R).
Proof.
  split; intros position kd m H Hf; unfold calculate_drift in H;
    destruct (iloc_last (combine _ _)) as [[fx [fy fz]]|e]; try discriminate H;
    destruct (iloc_last (displacement position)) as [d|e]; try discriminate H;
    injection H as <-; cbn [final_position] in Hf; injection Hf as -> -> ->;
    cbn [drift_magnitude with_known].
  - split; [vm_compute; reflexivity|].
    eexists; split; [reflexivity|]; vm_compute; reflexivity.
  - assert (E : linalg_norm (0, 0, 0)%R = 0%R).
    { unfold linalg_norm; cbn [ddot fsqrt Exact]; unfold dot_in_order.
      replace (0 * 0 + 0 * 0 + 0 * 0)%R with 0%R by ring; apply sqrt_0. }
    split; [exact E|].
    eexists; split; [reflexivity|]; exact E.
Qed.

Lemma origin_return_error_witness :
  let data : DataFrame float := [ mkSample 0 0 0 0; mkSample 1 0 0 0 ]%float in
  let m := mkDrift (0, 0, 0)%float 0%float 0%float
             (Some (mkKnown 1 0 1 100 0))%float in
  calculate_drift (calculate_position plain_mps2 data) (Some 1%float) = Ok m /\
  drift_magnitude m = 0%float.
Proof.
  cbv zeta.
  assert (H : calculate_drift
                (calculate_position plain_mps2
                   [ mkSample 0 0 0 0; mkSample 1 0 0 0 ]%float) (Some 1%float)
              = Ok (mkDrift (0, 0, 0)%float 0%float 0%float
                      (Some (mkKnown 1 0 1 100 0))%float))
    by (vm_compute; reflexivity).
  split; [exact H|].
  exact (proj1 (proj1 origin_return_error _ _ _ H eq_refl)).
Defined.

(** * The rest of the pipeline ([position.py])

    The stages [main] runs around calibration and integration: scaling,
    gravity removal, the sampling-rate estimate of the low-pass filter, the
    improvement summary. *)

(** [x != y] and [x > 0] need equality on numbers. *)
Class ArithEq (F : Type) : Type := { feqb : F -> F -> bool }.

#[export] Instance Float64Eq : ArithEq float := {| feqb := PrimFloat.eqb |}.

#[export] Instance ExactEq : ArithEq R :=
  {| feqb := fun x y => if Req_dec_T x y then true else false |}.

Section Stages.

Context {F : Type} {AF : Arith F} {EF : ArithEq F}.
Local Open Scope arith_scope.

(** [preprocess_data] (lines 42-54) *)
Definition preprocess_data (data : DataFrame F) (scale_factor : F) : DataFrame F :=
  if negb (feqb scale_factor fone)
  then map (fun s => mkSample (seconds_elapsed s)
                       (x_acc s * scale_factor) (y_acc s * scale_factor)
                       (z_acc s * scale_factor)) data
  else data.

(** [DataFrame.mean()] of one column: NaN entries are skipped. *)
Definition column_mean (l : list F) : F :=
  let kept := filter (fun x => negb (fisnan x)) l in
  sum_list kept / fof_nat (length kept).

(** The mean acceleration of the first ten samples (lines 122-123). *)
Definition initial_mean (data : DataFrame F) : vec3 F :=
  let initial_samples := firstn 10 data in
  (column_mean (map (@x_acc F) initial_samples),
   column_mean (map (@y_acc F) initial_samples),
   column_mean (map (@z_acc F) initial_samples)).

(** [np.sqrt(np.sum(v**2))] *)
Definition norm3 (v : vec3 F) : F :=
  let '(x, y, z) := v in fsqrt (x * x + y * y + z * z).

(** The direction of gravity (lines 126-129). *)
Definition gravity_direction (data : DataFrame F) : vec3 F :=
  let mean_acc := initial_mean data in
  let gravity_magnitude := norm3 mean_acc in
  vdiv mean_acc gravity_magnitude.

(** [k * v] for a scalar [k] and a vector [v]. *)
Definition smul (k : F) (v : vec3 F) : vec3 F :=
  let '(v0, v1, v2) := v in (k * v0, k * v1, k * v2).

(** [remove_gravity] (lines 117-150) *)
Definition remove_gravity (data : DataFrame F) : DataFrame F :=
  let g := gravity_direction data in
  map (fun s =>
         let a := acc_of s in
         let gravity_component := smul (ddot a g) g in
         with_acc s (vsub a gravity_component)) data.

(** [np.diff] *)
Fixpoint diff (l : list F) : list F :=
  match l with
  | x :: (y :: _) as r => (y - x) :: diff r
  | _ => []
  end.

(** [np.mean]: in exact arithmetic, and in binary64 up to the order of the
    additions (see [sum_list]). *)
Definition mean (l : list F) : F := sum_list l / fof_nat (length l).

(** The sampling frequency [apply_low_pass_filter] estimates when none is
    given (lines 59-61), and the cutoff it hands to scipy's filter design
    (lines 66-67); the filtering itself is scipy's. *)
Definition estimate_fs (data : DataFrame F) : F :=
  fone / mean (diff (map (@seconds_elapsed F) data)).

Definition normal_cutoff (cutoff_freq fs : F) : F :=
  let nyquist := fhalf * fs in cutoff_freq / nyquist.

End Stages.

(** ** What the stages keep *)

Section StageFacts.

Context {F : Type} {AF : Arith F} {EF : ArithEq F}.

Lemma with_acc_time (s : sample F) (v : vec3 F) :
  seconds_elapsed (with_acc s v) = seconds_elapsed s.
Proof. destruct v as [[x y] z]; reflexivity. Qed.

Lemma preprocess_data_times (data : DataFrame F) k :
  times (preprocess_data data k) = times data.
Proof.
  unfold preprocess_data, times; destruct (negb (feqb k fone)); [|reflexivity].
  rewrite map_map; reflexivity.
Qed.

Lemma remove_gravity_times (data : DataFrame F) :
  times (remove_gravity data) = times data.
Proof.
  unfold remove_gravity, times; cbv zeta; rewrite map_map.
  apply map_ext; intros s; apply with_acc_time.
Qed.

Lemma apply_calibration_times (cfg : config F) (data : DataFrame F) params :
  times (apply_calibration cfg data params) = times data.
Proof.
  unfold apply_calibration.
  destruct params as [[[b|] [T|]]|]; try reflexivity;
    try (rewrite apply_calibration_body_missing by auto; reflexivity).
  rewrite apply_calibration_body_rows; unfold times; rewrite map_map.
  apply map_ext; intros s; apply with_acc_time.
Qed.

End StageFacts.

(** Scaling, calibration and gravity removal change accelerations only:
    each returns one row per input row, with the input's time stamps, so
    the integrator runs on the time column that was read. *)
Theorem stages_keep_time :
  forall (F : Type) (AF : Arith F) (EF : ArithEq F) (cfg : config F)
         (data : DataFrame F) (scale_factor : F)
         (params : option (cal_params F)),
    times (preprocess_data data scale_factor) = times data /\
    times (apply_calibration cfg data params) = times data /\
    times (remove_gravity data) = times data /\
    times (remove_gravity
             (apply_calibration cfg (preprocess_data data scale_factor) params))
    = times data.
Proof.
  intros; repeat split.
  - apply preprocess_data_times.
  - apply apply_calibration_times.
  - apply remove_gravity_times.
  - rewrite remove_gravity_times, apply_calibration_times.
    apply preprocess_data_times.
Qed.

(** ** Units: the flag against the scale stage *)

Lemma units_flag_as_scaling {F : Type} {AF : Arith F} {EF : ArithEq F}
    (thr : F) (w : nat) (data : DataFrame F) :
  feqb fgravity fone = false ->
  calculate_position (mkConfig true false thr w) (preprocess_data data fgravity)
  = let r := calculate_position (mkConfig false false thr w) data in
    mkPosition (preprocess_data data fgravity) (pd_arrays r) (displacement r) None.
Proof.
  intros Hg; unfold preprocess_data; rewrite Hg; cbn [negb].
  unfold calculate_position; cbn [APPLY_ZUPT]; cbv zeta.
  cbn [pd_arrays displacement].
  unfold acc_mps2, to_mps2; cbn [UNITS_IN_MPS2].
  rewrite !map_map, !length_map; cbn [seconds_elapsed x_acc y_acc z_acc].
  reflexivity.
Qed.

Lemma gravity_not_one_float : feqb (fgravity : float) fone = false.
Proof. vm_compute; reflexivity. Qed.

Lemma gravity_not_one_exact : feqb (fgravity : R) fone = false.
Proof.
  cbn; destruct (Req_dec_T (981 / 100) 1) as [H|H]; [lra | reflexivity].
Qed.

(** Input in g can be converted to m/s^2 by the unit flag or by the scale
    stage with factor 9.81: plain-mode integration returns the same
    velocity, position and displacement columns either way, bit for bit in
    binary64 and in exact arithmetic. *)
Theorem units_flag_or_scale_stage :
  (forall (thr : float) (w : nat) (data : DataFrame float),
     let by_flag := calculate_position (mkConfig false false thr w) data in
     let by_stage := calculate_position (mkConfig true false thr w)
                       (preprocess_data data fgravity) in
     pd_arrays by_stage = pd_arrays by_flag /\
     displacement by_stage = displacement by_flag) /\
  (forall (thr : R) (w : nat) (data : DataFrame R),
     let by_flag := calculate_position (mkConfig false false thr w) data in
     let by_stage := calculate_position (mkConfig true false thr w)
                       (preprocess_data data fgravity) in
     pd_arrays by_stage = pd_arrays by_flag /\
     displacement by_stage = displacement by_flag).
Proof.
  split; intros thr w data by_flag by_stage; unfold by_stage, by_flag.
  - rewrite (units_flag_as_scaling thr w data gravity_not_one_float).
    split; reflexivity.
  - rewrite (units_flag_as_scaling thr w data gravity_not_one_exact).
    split; reflexivity.
Qed.

(** ** Integration is homogeneous in the acceleration *)

Lemma get_map_nth_error {A : Type} (f : A -> R) (l : list A) (j : nat) :
  get (map f l) j = match nth_error l j with Some a => f a | None => 0%R end.
Proof.
  unfold get; revert j; induction l as [|a l IH]; intros [|j]; cbn; auto.
Qed.

Lemma acc_mps2_scaled (cfg : config R) (col : sample R -> R)
    (data : DataFrame R) (k : R) (j : nat) :
  (forall s, col (mkSample (seconds_elapsed s) (x_acc s * k) (y_acc s * k)
                    (z_acc s * k))%R = (col s * k)%R) ->
  get (acc_mps2 cfg col (preprocess_data data k)) j
  = (k * get (acc_mps2 cfg col data) j)%R.
Proof.
  intros Hcol; unfold preprocess_data; cbn [feqb ExactEq fone Exact].
  destruct (Req_dec_T k 1) as [->|Hk]; cbn [negb]; [lra|].
  unfold acc_mps2; rewrite map_map, !get_map_nth_error.
  destruct (nth_error data j) as [s|]; [|lra].
  cbn [fmul Exact]; rewrite Hcol.
  unfold to_mps2; destruct (UNITS_IN_MPS2 cfg); cbn; lra.
Qed.

Lemma get_overflow (l : list R) (i : nat) : length l <= i -> get l i = 0%R.
Proof. intros H; unfold get; apply nth_overflow; exact H. Qed.

(** Scaling the accelerations by [k] (the scale stage) scales every
    velocity and position of plain-mode integration by [k], in exact
    arithmetic. *)
Theorem integration_scales :
  forall (cfg : config R) (data : DataFrame R) (k : R) (c : column) (i : nat),
    APPLY_ZUPT cfg = false ->
    get (field c (pd_arrays (calculate_position cfg (preprocess_data data k)))) i
    = (k * get (field c (pd_arrays (calculate_position cfg data))) i)%R.
Proof.
  intros cfg data k c i Hz; revert c.
  set (st' := pd_arrays (calculate_position cfg (preprocess_data data k))).
  set (st := pd_arrays (calculate_position cfg data)).
  assert (Hlen : length (preprocess_data data k) = length data).
  { rewrite <- (length_map (@seconds_elapsed R) (preprocess_data data k)).
    fold (times (preprocess_data data k)); rewrite preprocess_data_times.
    apply length_map. }
  destruct (plain_boundary cfg data Hz) as (_ & Hs & _ & Hv0 & Hp0).
  destruct (plain_boundary cfg (preprocess_data data k) Hz)
    as (_ & Hs' & _ & Hv0' & Hp0').
  fold st in Hs, Hv0, Hp0; fold st' in Hs', Hv0', Hp0'; rewrite Hlen in Hs'.
  induction i as [|i IH]; intros c.
  - unfold velocity_at, position_at, zero3 in *.
    injection Hv0 as A1 A2 A3; injection Hp0 as A4 A5 A6.
    injection Hv0' as B1 B2 B3; injection Hp0' as B4 B5 B6.
    destruct c; cbn [field]; cbn [fzero Exact] in *;
      first [rewrite A1, B1 | rewrite A2, B2 | rewrite A3, B3
            | rewrite A4, B4 | rewrite A5, B5 | rewrite A6, B6]; lra.
  - destruct (Nat.lt_ge_cases (S i) (length data)) as [Hlt|Hge].
    + assert (Hr : 1 <= S i < length data) by lia.
      assert (Hr' : 1 <= S i < length (preprocess_data data k)) by lia.
      destruct (plain_rules cfg data Hz Hr) as [(Vx & Vy & Vz) (Px & Py & Pz)].
      destruct (plain_rules cfg (preprocess_data data k) Hz Hr')
        as [(Vx' & Vy' & Vz') (Px' & Py' & Pz')].
      fold st in Vx, Vy, Vz, Px, Py, Pz; fold st' in Vx', Vy', Vz', Px', Py', Pz'.
      rewrite preprocess_data_times in Vx', Vy', Vz', Px', Py', Pz'.
      unfold velocity_rule in *; unfold position_rule in *.
      replace (nth (S i) (@nil bool) false) with false in * by reflexivity.
      cbn [negb] in *.
      replace (S i - 1) with i in * by lia.
      rewrite !(acc_mps2_scaled cfg (@x_acc R)) in Vx' by reflexivity.
      rewrite !(acc_mps2_scaled cfg (@y_acc R)) in Vy' by reflexivity.
      rewrite !(acc_mps2_scaled cfg (@z_acc R)) in Vz' by reflexivity.
      pose proof (IH VX) as Ix; pose proof (IH VY) as Iy; pose proof (IH VZ) as Iz.
      pose proof (IH PX) as Jx; pose proof (IH PY) as Jy; pose proof (IH PZ) as Jz.
      cbn [field] in Ix, Iy, Iz, Jx, Jy, Jz.
      cbn [fadd fmul fhalf Exact] in *.
      assert (Ex : get (vx st') (S i) = (k * get (vx st) (S i))%R)
        by (rewrite Vx', Vx, Ix; ring).
      assert (Ey : get (vy st') (S i) = (k * get (vy st) (S i))%R)
        by (rewrite Vy', Vy, Iy; ring).
      assert (Ez : get (vz st') (S i) = (k * get (vz st) (S i))%R)
        by (rewrite Vz', Vz, Iz; ring).
      destruct c; cbn [field]; try assumption.
      * rewrite Px', Px, Jx, Ix, Ex; ring.
      * rewrite Py', Py, Jy, Iy, Ey; ring.
      * rewrite Pz', Pz, Jz, Iz, Ez; ring.
    + rewrite !get_overflow; [lra | rewrite (Hs c); exact Hge
                                   | rewrite (Hs' c); exact Hge].
Qed.

Lemma integration_scales_witness :
  get (vx (pd_arrays (calculate_position plain_mps2
                        (preprocess_data (scenario (F:=R)) 3%R)))) 2
  = (3 * get (vx (pd_arrays (calculate_position plain_mps2 (scenario (F:=R))))) 2)%R.
Proof. exact (@integration_scales plain_mps2 scenario 3%R VX 2 eq_refl). Defined.

(** ** Gravity removal *)

Section GravityExact.

Local Open Scope R_scope.

Lemma norm3_sqr (v : vec3 R) : norm3 v * norm3 v = dot3 v v.
Proof.
  destruct v as [[x y] z]; unfold norm3, dot3; cbn.
  apply sqrt_sqrt; nra.
Qed.

(** A non-zero vector divided by its norm has unit length. *)
Lemma unit_direction (m : vec3 R) :
  norm3 m <> 0 -> dot3 (vdiv m (norm3 m)) (vdiv m (norm3 m)) = 1.
Proof.
  intros Hn; pose proof (norm3_sqr m) as Hs.
  destruct m as [[x y] z]; unfold vdiv, dot3, norm3 in *.
  cbn [fdiv fmul fadd fsqrt Exact] in *.
  set (n := sqrt (x * x + y * y + z * z)) in *.
  replace (x / n * (x / n) + y / n * (y / n) + z / n * (z / n))
    with ((x * x + y * y + z * z) / (n * n)) by (field; exact Hn).
  rewrite <- Hs; field; exact Hn.
Qed.

Lemma projection_removed (a g : vec3 R) :
  dot3 g g = 1 -> dot3 (vsub a (smul (dot3 a g) g)) g = 0.
Proof.
  destruct a as [[a0 a1] a2], g as [[g0 g1] g2]; unfold dot3, vsub, smul; cbn.
  intros H.
  replace ((a0 - (a0 * g0 + a1 * g1 + a2 * g2) * g0) * g0 +
           (a1 - (a0 * g0 + a1 * g1 + a2 * g2) * g1) * g1 +
           (a2 - (a0 * g0 + a1 * g1 + a2 * g2) * g2) * g2)
    with ((a0 * g0 + a1 * g1 + a2 * g2) * (1 - (g0 * g0 + g1 * g1 + g2 * g2)))
    by ring.
  rewrite H; ring.
Qed.

End GravityExact.

(** After gravity removal no sample has a component along the estimated
    gravity direction, provided the mean acceleration of the first ten
    samples is not the zero vector (exact arithmetic). *)
Theorem remove_gravity_orthogonal :
  forall (data : DataFrame R) (s : sample R),
    norm3 (initial_mean data) <> 0%R ->
    In s (remove_gravity data) ->
    dot3 (acc_of s) (gravity_direction data) = 0%R.
Proof.
  intros data s Hn Hin; unfold remove_gravity in Hin; cbv zeta in Hin.
  apply in_map_iff in Hin; destruct Hin as (s0 & <- & _).
  rewrite acc_of_with_acc.
  apply projection_removed; unfold gravity_direction; cbv zeta.
  apply unit_direction, Hn.
Qed.

(** One sample at rest, gravity along z. *)
Definition resting : DataFrame R := [ mkSample 0 0 0 1 ]%R.

Lemma remove_gravity_orthogonal_witness :
  dot3 (acc_of (nth 0 (remove_gravity resting) (mkSample 0 0 0 0)%R))
    (gravity_direction resting) = 0%R.
Proof.
  apply (@remove_gravity_orthogonal resting).
  - apply Rgt_not_eq, Rlt_gt.
    unfold norm3, initial_mean, column_mean, sum_list, resting; cbn.
    apply sqrt_lt_R0; lra.
  - left; reflexivity.
Defined.

(** *** A series that starts at exactly zero acceleration *)

Lemma float_mul_nan (x : float) : (x * nan)%float = nan.
Proof.
  apply Prim2SF_inj; rewrite mul_spec.
  change (Prim2SF nan) with S754_nan.
  destruct (Prim2SF x) as [?|?| |? ? ?]; reflexivity.
Qed.

Lemma float_sub_nan (x : float) : (x - nan)%float = nan.
Proof.
  apply Prim2SF_inj; rewrite sub_spec.
  change (Prim2SF nan) with S754_nan.
  destruct (Prim2SF x) as [?|?| |? ? ?]; reflexivity.
Qed.

Lemma all_zero_repeat (l : list float) :
  (forall x, In x l -> x = 0%float) -> l = repeat 0%float (length l).
Proof.
  induction l as [|a l IH]; intros H; [reflexivity|].
  cbn; rewrite (H a (or_introl eq_refl)); f_equal.
  apply IH; intros x Hx; apply H; right; exact Hx.
Qed.

Lemma gravity_direction_zero_start (data : DataFrame float) :
  (forall s, In s (firstn 10 data) -> acc_of s = (0, 0, 0)%float) ->
  gravity_direction data = (nan, nan, nan).
Proof.
  intros H.
  assert (Hc : forall col : sample float -> float,
             (forall s, col s = fst (fst (acc_of s)) \/ col s = snd (fst (acc_of s))
                        \/ col s = snd (acc_of s)) ->
             map col (firstn 10 data)
             = repeat 0%float (length (firstn 10 data))).
  { intros col Hcol.
    rewrite <- (length_map col (firstn 10 data)).
    apply all_zero_repeat; intros x Hx.
    apply in_map_iff in Hx; destruct Hx as (s & <- & Hs).
    specialize (H s Hs); destruct (Hcol s) as [E|[E|E]]; rewrite E, H; reflexivity. }
  unfold gravity_direction, initial_mean; cbv zeta.
  rewrite (Hc (@x_acc float)) by (intros s; left; reflexivity).
  rewrite (Hc (@y_acc float)) by (intros s; right; left; reflexivity).
  rewrite (Hc (@z_acc float)) by (intros s; right; right; reflexivity).
  assert (Hn : length (firstn 10 data) <= 10)
    by (rewrite length_firstn; apply Nat.le_min_l).
  destruct (length (firstn 10 data)) as [|[|[|[|[|[|[|[|[|[|[|n]]]]]]]]]]];
    try (vm_compute; reflexivity).
  exfalso; lia.
Qed.

(** When the first ten samples (or all of them, if fewer) have exactly
    zero acceleration, the gravity estimate is 0/0 and [remove_gravity]
    returns NaN on the three axes of every sample of the series, without
    raising (binary64). *)
Theorem remove_gravity_zero_start :
  forall (data : DataFrame float) (s : sample float),
    (forall s0, In s0 (firstn 10 data) -> acc_of s0 = (0, 0, 0)%float) ->
    In s (remove_gravity data) ->
    acc_of s = (nan, nan, nan).
Proof.
  intros data s H Hin; unfold remove_gravity in Hin; cbv zeta in Hin.
  rewrite (gravity_direction_zero_start data H) in Hin.
  apply in_map_iff in Hin; destruct Hin as (s0 & <- & _).
  rewrite acc_of_with_acc.
  destruct (acc_of s0) as [[a0 a1] a2].
  unfold vsub, smul, dot3; cbn [fmul fadd fsub Float64].
  rewrite !float_mul_nan.
  change (nan + nan + nan)%float with nan.
  change (nan * nan)%float with nan.
  rewrite !float_sub_nan; reflexivity.
Qed.

(** Three samples with no acceleration at all. *)
Definition weightless : DataFrame float :=
  [ mkSample 0 0 0 0; mkSample 1 0 0 0; mkSample 2 0 0 0 ]%float.

Lemma remove_gravity_zero_start_witness :
  acc_of (nth 2 (remove_gravity weightless) (mkSample 0 0 0 0)%float)
  = (nan, nan, nan).
Proof.
  apply (@remove_gravity_zero_start weightless).
  - intros s0 [<-|[<-|[<-|[]]]]; reflexivity.
  - right; right; left; reflexivity.
Defined.

(** ** The sampling-rate estimate of the low-pass filter *)

Lemma diff_length (l : list R) : length (diff l) = length l - 1.
Proof.
  induction l as [|x [|y r] IH]; [reflexivity | reflexivity|].
  change (diff (x :: y :: r)) with ((y - x)%A :: diff (y :: r)).
  cbn [length] in *; rewrite IH; lia.
Qed.

Lemma sum_diff (l : list R) (x acc : R) :
  fold_left Rplus (diff (x :: l)) acc
  = (acc + (get (x :: l) (length l) - x))%R.
Proof.
  revert x acc; induction l as [|y r IH]; intros x acc.
  - cbn; unfold get; cbn; lra.
  - change (diff (x :: y :: r)) with ((y - x)%A :: diff (y :: r)).
    cbn [fold_left]; rewrite IH.
    cbn [length]; unfold get; cbn [nth fsub Exact]; lra.
Qed.

(** The mean of the time differences telescopes: the estimated sampling
    frequency is [(n - 1) / (t[n-1] - t[0])], whatever the time stamps in
    between (exact arithmetic, at least two samples). *)
Theorem estimate_fs_telescopes :
  forall (data : DataFrame R),
    2 <= length data ->
    let t := times data in
    let n := length data in
    mean (diff t) = ((get t (n - 1) - get t 0) / INR (n - 1))%R /\
    estimate_fs data = (1 / ((get t (n - 1) - get t 0) / INR (n - 1)))%R.
Proof.
  intros data Hn; cbv zeta.
  assert (Ht : length (times data) = length data) by apply length_map.
  unfold estimate_fs; change (map (@seconds_elapsed R) data) with (times data).
  revert Ht; generalize (times data); generalize dependent (length data).
  intros n Hn t Ht.
  assert (Hm : mean (diff t) = ((get t (n - 1) - get t 0) / INR (n - 1))%R).
  { unfold mean, sum_list; cbn [fdiv fadd fzero fof_nat Exact].
    rewrite diff_length, Ht.
    destruct t as [|x l]; [cbn in Ht; lia|].
    rewrite sum_diff.
    cbn [length] in Ht.
    replace (length l) with (n - 1) by lia.
    change (get (x :: l) 0) with x.
    f_equal; lra. }
  split; [exact Hm | rewrite Hm; reflexivity].
Qed.

Lemma estimate_fs_telescopes_witness :
  estimate_fs (scenario (F:=R)) = (1 / ((2 - 0) / 2))%R.
Proof.
  rewrite (proj2 (@estimate_fs_telescopes scenario ltac:(cbn; lia))).
  cbn; f_equal; f_equal; lra.
Defined.

(** * Saving the results and the [main] of [position.py] *)

Section Results.

Context {F : Type} {AF : Arith F} {EF : ArithEq F}.
Local Open Scope arith_scope.

(** The dictionary [improvement] of [save_results] (lines 510-515). *)
Record improvement : Type := mkImprovement {
  return_error_reduction : F;
  return_error_reduction_percent : F;
  max_displacement_error_reduction : F;
  max_displacement_error_reduction_percent : F
}.

(** Building [improvement] reads the keys ["return_error"] and
    ["max_displacement_error"] of both metrics: [KeyError] when
    [calculate_drift] was given no known distance. *)
Definition improvement_of (raw_metrics cal_metrics : drift_metrics F)
  : result improvement :=
  match with_known raw_metrics, with_known cal_metrics with
  | Some r, Some c =>
      Ok (mkImprovement
            (return_error r - return_error c)
            (if fltb fzero (return_error r)
             then (return_error r - return_error c) / return_error r * fhundred
             else fzero)
            (max_displacement_error r - max_displacement_error c)
            (if fltb fzero (max_displacement_error r)
             then (max_displacement_error r - max_displacement_error c)
                  / max_displacement_error r * fhundred
             else fzero))
  | _, _ => Raise KeyError
  end.

(** [save_results] (lines 506-531).  [dump] stands for opening the file
    and writing the JSON document; any exception ends in [False]. *)
Definition save_results
    (dump : drift_metrics F * drift_metrics F * improvement -> result unit)
    (raw_metrics cal_metrics : drift_metrics F) : bool :=
  match improvement_of raw_metrics cal_metrics with
  | Raise _ => false
  | Ok imp =>
      match dump (raw_metrics, cal_metrics, imp) with
      | Ok _ => true
      | Raise _ => false
      end
  end.

(** What [main] has computed when it returns. *)
Record main_report : Type := mkReport {
  raw_metrics_of : drift_metrics F;
  cal_metrics_of : option (drift_metrics F);
  saved : option bool              (* the result of [save_results], if called *)
}.

(** [main] (lines 533-625) with [LOW_PASS_FILTER = False], as the module
    sets it; plotting and printing are left out, except for the keys the
    final summary reads.  [file] is what [read_data] returned, [params]
    what [read_calibration_params] returned when that is a non-empty
    dictionary.  [Ok None] is the early [return]. *)
Definition main
    (cfg : config F) (SCALE_FACTOR : F) (KNOWN_DISTANCE : option F)
    (dump : drift_metrics F * drift_metrics F * improvement -> result unit)
    (file : option (DataFrame F)) (params : option (cal_params F))
  : result (option main_report) :=
  match file with
  | None => Ok None
  | Some data =>
  match iloc_last (map (@seconds_elapsed F) data) with
  | Raise e => Raise e
  | Ok _ =>
      let data := preprocess_data data SCALE_FACTOR in
      let raw_data := data in
      let cal_data :=
        match params with
        | Some _ => Some (apply_calibration cfg raw_data params)
        | None => None
        end in
      let raw_position_data := calculate_position cfg (remove_gravity raw_data) in
      let cal_position_data :=
        option_map (fun d => calculate_position cfg (remove_gravity d)) cal_data in
      match calculate_drift raw_position_data KNOWN_DISTANCE with
      | Raise e => Raise e
      | Ok raw_metrics =>
      match match cal_position_data with
            | Some p =>
                match calculate_drift p KNOWN_DISTANCE with
                | Ok m => Ok (Some m)
                | Raise e => Raise e
                end
            | None => Ok None
            end with
      | Raise e => Raise e
      | Ok cal_metrics =>
          let saved :=
            option_map (fun m => save_results dump raw_metrics m) cal_metrics in
          (* the summary prints raw_metrics['return_error'] and, for the
             calibrated data, cal_metrics['return_error'] *)
          match with_known raw_metrics with
          | None => Raise KeyError
          | Some _ =>
              match cal_metrics with
              | Some m =>
                  match with_known m with
                  | None => Raise KeyError
                  | Some _ => Ok (Some (mkReport raw_metrics cal_metrics saved))
                  end
              | None => Ok (Some (mkReport raw_metrics cal_metrics saved))
              end
          end
      end end
  end end.

End Results.

Arguments improvement F : clear implicits.
Arguments main_report F : clear implicits.

Section MainFacts.

Context {F : Type} {AF : Arith F} {EF : ArithEq F}.

Lemma nonempty_times (d d' : DataFrame F) :
  times d' = times d -> d <> [] -> d' <> [].
Proof.
  intros Ht Hne ->; destruct d; [congruence | discriminate Ht].
Qed.

Lemma iloc_last_times (data : DataFrame F) :
  data <> [] -> exists t, iloc_last (map (@seconds_elapsed F) data) = Ok t.
Proof.
  intros Hne; apply iloc_last_nonempty.
  destruct data; [congruence | discriminate].
Qed.

(** The metrics of one run of the pipeline on a non-empty frame. *)
Lemma drift_of_pipeline (cfg : config F) (d : DataFrame F) (known : option F) :
  d <> [] ->
  exists m, calculate_drift (calculate_position cfg (remove_gravity d)) known = Ok m /\
            (known = None -> with_known m = None) /\
            (forall kd, known = Some kd -> exists k, with_known m = Some k).
Proof.
  intros Hne.
  assert (Hg : remove_gravity d <> [])
    by (apply (nonempty_times (remove_gravity_times d) Hne)).
  destruct (calculate_drift_integrated cfg known Hg) as (fx & fy & fz & _ & H).
  cbv zeta in H; rewrite H; eexists; split; [reflexivity|].
  cbn [with_known]; split; [intros ->; reflexivity|].
  intros kd ->; eexists; reflexivity.
Qed.

End MainFacts.




(** Parameters holding a transform but no bias. *)
Definition no_bias : cal_params float :=
  mkCal None (Some identity3).




(** For metrics that [calculate_drift] computed with a known distance the
    improvement is always defined, its two percentages are at most 100,
    and a percentage is 0, with no division, when the raw error it refers
    to is 0 (exact arithmetic). *)
Theorem improvement_percent_bounded :
  forall (p p' : position_data R) (kd kd' : R) (m m' : drift_metrics R),
    calculate_drift p (Some kd) = Ok m ->
    calculate_drift p' (Some kd') = Ok m' ->
    exists (k : known_metrics R) (imp : improvement R),
      with_known m = Some k /\
      improvement_of m m' = Ok imp /\
      (return_error_reduction_percent imp <= 100)%R /\
      (max_displacement_error_reduction_percent imp <= 100)%R /\
      (return_error k = 0%R -> return_error_reduction_percent imp = 0%R) /\
      (max_displacement_error k = 0%R ->
       max_displacement_error_reduction_percent imp = 0%R).
Proof.
  intros p p' kd kd' m m' H H'.
  assert (K : forall q d (n : drift_metrics R),
             calculate_drift q (Some d) = Ok n ->
             exists k, with_known n = Some k /\
                       (0 <= return_error k)%R /\
                       (0 <= max_displacement_error k)%R).
  { intros q d n Hq; unfold calculate_drift in Hq.
    destruct (iloc_last (combine _ _)) as [[fx [fy fz]]|e]; try discriminate Hq.
    destruct (iloc_last (displacement q)) as [dd|e]; try discriminate Hq.
    injection Hq as <-; eexists; split; [reflexivity|].
    cbn [return_error max_displacement_error]; split.
    - unfold linalg_norm; cbn [fsqrt Exact]; apply sqrt_pos.
    - cbn [fabs Exact]; apply Rabs_pos. }
  destruct (K p kd m H) as (k & Hk & R0 & D0).
  destruct (K p' kd' m' H') as (k' & Hk' & R0' & D0').
  exists k; unfold improvement_of; rewrite Hk, Hk'.
  eexists; split; [reflexivity|]; split; [reflexivity|].
  cbn [return_error_reduction_percent max_displacement_error_reduction_percent].
  cbn [fsub fdiv fmul fzero fhundred fltb Exact].
  assert (B : forall r c : R, (0 <= c)%R ->
             ((if (if Rlt_dec 0 r then true else false)
               then (r - c) / r * 100 else 0) <= 100)%R /\
             (r = 0%R ->
              (if (if Rlt_dec 0 r then true else false)
               then (r - c) / r * 100 else 0)%R = 0%R)).
  { intros r c Hc; destruct (Rlt_dec 0 r) as [Hr|Hr]; split; try lra.
    replace ((r - c) / r * 100)%R with (100 - c / r * 100)%R by (field; lra).
    assert (0 <= c / r)%R.
    { unfold Rdiv; apply Rmult_le_pos; [exact Hc|].
      left; apply Rinv_0_lt_compat; exact Hr. }
    lra. }
  destruct (B (return_error k) (return_error k') R0') as [B1 B2].
  destruct (B (max_displacement_error k) (max_displacement_error k') D0')
    as [B3 B4].
  repeat split; assumption.
Qed.

(** A one-row frame at the origin. *)
Definition at_origin : position_data R :=
  mkPosition [] (mkArrays [0%R] [0%R] [0%R] [0%R] [0%R] [0%R]) [0%R] None.

Lemma improvement_percent_bounded_witness :
  exists (m : drift_metrics R) (imp : improvement R),
    calculate_drift at_origin (Some 1%R) = Ok m /\
    improvement_of m m = Ok imp /\
    (return_error_reduction_percent imp <= 100)%R.
Proof.
  destruct (@improvement_percent_bounded at_origin at_origin 1%R 1%R _ _
              eq_refl eq_refl) as (k & imp & _ & Hi & Hb & _).
  eexists; exists imp; split; [reflexivity|]; split; [exact Hi | exact Hb].
Defined.

(** * Calibration from the fit ([calculate_params.py]) *)

Section Calibrate.

Context {F : Type} {AF : Arith F}.
Local Open Scope arith_scope.

(** [np.diag(v)] *)
Definition diag (v : vec3 F) : mat3 F :=
  let '(a, b, c) := v in
  ((a, fzero, fzero), (fzero, b, fzero), (fzero, fzero, c)).

(** [A.dot(B)] for 3x3 matrices. *)
Definition mat_mat (A B : mat3 F) : mat3 F :=
  let '(a0, a1, a2) := A in (row_mat a0 B, row_mat a1 B, row_mat a2 B).

(** [np.sqrt(X**2 + Y**2 + Z**2)], row by row. *)
Definition magnitudes (pts : list (vec3 F)) : list F :=
  map (fun p => let '(x, y, z) := p in magnitude x y z) pts.

(** [np.std] of an array: the population standard deviation. *)
Definition std (l : list F) : F :=
  let m := mean l in
  fsqrt (mean (map (fun x => (x - m) * (x - m)) l)).

(** [np.std] of a pandas Series: the same with NaN entries skipped. *)
Definition series_std (l : list F) : F :=
  let kept := filter (fun x => negb (fisnan x)) l in
  let n := fof_nat (length kept) in
  let avg := sum_list kept / n in
  fsqrt (sum_list (map (fun x => (avg - x) * (avg - x)) kept) / n).

Record statistics : Type := mkStatistics {
  raw_magnitude_mean : F;
  raw_magnitude_std : F;
  calibrated_magnitude_mean : F;
  calibrated_magnitude_std : F
}.

(** The dictionary [calibration_params] (lines 104-118). *)
Record calibration_params : Type := mkCalibration {
  cp_bias : vec3 F;
  cp_transform_matrix : mat3 F;
  cp_statistics : statistics;
  cp_center : vec3 F;
  cp_radii : vec3 F;
  cp_rotation_matrix : mat3 F
}.

(** [calibrate_accelerometer] (lines 57-120); the frame [data] has the
    columns [ax], [ay], [az].  An exception of the fit is not caught. *)
Definition calibrate_accelerometer (L : linalg F) (data : list (vec3 F))
  : result (calibration_params * list (vec3 F) * vec3 F * vec3 F * mat3 F) :=
  let X := map (fun p => fst (fst p)) data in
  let Y := map (fun p => snd (fst p)) data in
  let Z := map (fun p => snd p) data in
  match fit_ellipsoid L X Y Z with
  | Raise e => Raise e
  | Ok (center, radii, evecs) =>
      let bias := center in
      let rotation_matrix := evecs in
      let scaling_matrix := diag (vmap (fun r => fone / r) radii) in
      let transform_matrix := mat_mat rotation_matrix scaling_matrix in
      let data_points := data in
      let calibrated_data := calibrate_points bias transform_matrix data_points in
      let raw_magnitudes := magnitudes data in
      let cal_magnitudes := magnitudes calibrated_data in
      Ok (mkCalibration bias transform_matrix
            (mkStatistics (mean raw_magnitudes) (std raw_magnitudes)
               (column_mean cal_magnitudes) (series_std cal_magnitudes))
            center radii evecs,
          calibrated_data, center, radii, evecs)
  end.

(** What [plot_ellipsoid] does to one point [s] of its unit-sphere mesh
    (lines 171-188): scaling by the radii, rotation, translation. *)
Definition ellipsoid_point (center radii : vec3 F) (rotation : mat3 F)
    (s : vec3 F) : vec3 F :=
  let '(x, y, z) := s in
  let '(r0, r1, r2) := radii in
  let p := mat_vec rotation (x * r0, y * r1, z * r2) in
  vadd p center.

End Calibrate.

Arguments statistics F : clear implicits.
Arguments calibration_params F : clear implicits.

(** The columns of [V] are unit vectors orthogonal to each other. *)
Definition orthonormal (V : mat3 R) : Prop :=
  let '(c0, c1, c2) := transpose V in
  dot3 c0 c0 = 1%R /\ dot3 c1 c1 = 1%R /\ dot3 c2 c2 = 1%R /\
  dot3 c0 c1 = 0%R /\ dot3 c0 c2 = 0%R /\ dot3 c1 c2 = 0%R.

(** The squared length of [evecs . diag(1/radii) . d] when the columns of
    [evecs] are orthonormal. *)
Lemma transform_magnitude (V : mat3 R) (radii d : vec3 R) :
  orthonormal V ->
  let T := mat_mat V (diag (vmap (fun r => fdiv fone r) radii)) in
  let c := row_mat d (transpose T) in
  let '(d0, d1, d2) := d in
  let '(r0, r1, r2) := radii in
  dot3 c c = (d0 * (1 / r0) * (d0 * (1 / r0)) + d1 * (1 / r1) * (d1 * (1 / r1))
              + d2 * (1 / r2) * (d2 * (1 / r2)))%R.
Proof.
  destruct V as [[[[v00 v01] v02] [[v10 v11] v12]] [[v20 v21] v22]].
  destruct radii as [[r0 r1] r2], d as [[d0 d1] d2].
  unfold orthonormal, transpose, dot3; cbn [fmul fadd Exact].
  intros (C00 & C11 & C22 & C01 & C02 & C12).
  cbv zeta; unfold mat_mat, row_mat, diag, vmap, transpose, dot3.
  cbn [fmul fadd fdiv fone fzero gemm_dot Exact]; unfold dot_in_order.
  set (y0 := (d0 * (1 / r0))%R); set (y1 := (d1 * (1 / r1))%R);
    set (y2 := (d2 * (1 / r2))%R).
  transitivity
    (y0 * y0 * (v00 * v00 + v10 * v10 + v20 * v20)
     + y1 * y1 * (v01 * v01 + v11 * v11 + v21 * v21)
     + y2 * y2 * (v02 * v02 + v12 * v12 + v22 * v22)
     + 2 * y0 * y1 * (v00 * v01 + v10 * v11 + v20 * v21)
     + 2 * y0 * y2 * (v00 * v02 + v10 * v12 + v20 * v22)
     + 2 * y1 * y2 * (v01 * v02 + v11 * v12 + v21 * v22))%R.
  - unfold y0, y1, y2; ring.
  - rewrite C00, C11, C22, C01, C02, C12; ring.
Qed.

Lemma nth_map_in_range {A B : Type} (f : A -> B) (l : list A) (i : nat) (a : A) (b : B) :
  i < length l -> nth i (map f l) b = f (nth i l a).
Proof.
  intros Hi; rewrite (nth_indep _ b (f a)) by (rewrite length_map; exact Hi).
  apply map_nth.
Qed.

(** When the eigenvector matrix the fit returned has orthonormal columns,
    [calibrate_accelerometer] returns one calibrated row per input row,
    and the squared magnitude of the calibrated row of a point [p] is
    [sum_j ((p_j - center_j) / radii_j)^2]: the rotation does not enter.
    The calibrated points are on the unit sphere exactly when the points
    are on the ellipsoid of that centre and those radii whose axes are the
    coordinate axes (exact arithmetic). *)
Theorem calibrated_magnitude :
  forall (L : linalg R) (data : list (vec3 R))
         (params : calibration_params R) (calibrated : list (vec3 R))
         (center radii : vec3 R) (evecs : mat3 R),
    calibrate_accelerometer L data = Ok (params, calibrated, center, radii, evecs) ->
    orthonormal evecs ->
    length calibrated = length data /\
    cp_bias params = center /\
    forall i, i < length data ->
      let c := nth i calibrated (0, 0, 0)%R in
      let '(d0, d1, d2) := vsub (nth i data (0, 0, 0)%R) center in
      let '(r0, r1, r2) := radii in
      dot3 c c = (d0 * (1 / r0) * (d0 * (1 / r0)) + d1 * (1 / r1) * (d1 * (1 / r1))
                  + d2 * (1 / r2) * (d2 * (1 / r2)))%R.
Proof.
  intros L data params calibrated center radii evecs H Ho.
  unfold calibrate_accelerometer in H.
  destruct (fit_ellipsoid L _ _ _) as [[[c r] V]|e]; [|discriminate H].
  cbv zeta in H; injection H as <- <- -> -> ->.
  unfold calibrate_points; cbv zeta; rewrite !length_map.
  split; [reflexivity|]; split; [reflexivity|].
  intros i Hi; cbv zeta.
  rewrite map_map.
  rewrite (nth_map_in_range _ data (0, 0, 0)%R) by exact Hi.
  pose proof (@transform_magnitude evecs radii (vsub (nth i data (0, 0, 0)%R) center) Ho)
    as Ht.
  cbv zeta in Ht.
  destruct (vsub (nth i data (0, 0, 0)%R) center) as [[d0 d1] d2].
  destruct radii as [[r0 r1] r2]; exact Ht.
Qed.

(** [numpy.linalg] answering with the unit sphere, whatever it is asked. *)
Definition unit_sphere_answers : linalg R :=
  mkLinalg (fun _ _ => Ok [1; 1; 1; 0; 0; 0; 0; 0; 0]%R)
           (fun _ _ => Ok (0, 0, 0)%R)
           (fun _ => Ok ((1, 1, 1)%R, identity3)).

Lemma identity3_orthonormal : orthonormal identity3.
Proof. unfold orthonormal; cbn; repeat split; ring. Qed.

Lemma calibrated_magnitude_witness :
  exists params calibrated center radii,
    calibrate_accelerometer unit_sphere_answers [(1, 0, 0); (0, 1, 0)]%R
    = Ok (params, calibrated, center, radii, identity3) /\
    length calibrated = 2.
Proof.
  do 4 eexists; split; [reflexivity|].
  exact (proj1 (@calibrated_magnitude unit_sphere_answers [(1, 0, 0); (0, 1, 0)]%R
                  _ _ _ _ identity3 eq_refl identity3_orthonormal)).
Defined.

(** ** The plotted ellipsoid *)

Section PlottedEllipsoid.

Local Open Scope R_scope.

(** A surface point of [plot_ellipsoid], taken back to the axes of the
    ellipsoid, is the mesh point scaled by the radii. *)
Lemma ellipsoid_point_axes (center radii : vec3 R) (V : mat3 R) (s : vec3 R) :
  orthonormal V ->
  mat_vec (transpose V) (vsub (ellipsoid_point center radii V s) center)
  = (let '(x, y, z) := s in let '(r0, r1, r2) := radii in (x * r0, y * r1, z * r2)).
Proof.
  destruct V as [[[[v00 v01] v02] [[v10 v11] v12]] [[v20 v21] v22]].
  destruct radii as [[r0 r1] r2], s as [[x y] z], center as [[c0 c1] c2].
  unfold orthonormal, transpose, dot3; cbn [fmul fadd Exact].
  intros (C00 & C11 & C22 & C01 & C02 & C12).
  unfold ellipsoid_point, mat_vec, vadd, vsub, transpose, dot3.
  cbn [fmul fadd fsub gemv_dot Exact]; unfold dot_in_order.
  set (a := x * r0); set (b := y * r1); set (c := z * r2).
  apply triple_eq.
  - transitivity (a * (v00 * v00 + v10 * v10 + v20 * v20)
                  + b * (v00 * v01 + v10 * v11 + v20 * v21)
                  + c * (v00 * v02 + v10 * v12 + v20 * v22)); [ring|].
    rewrite C00, C01, C02; ring.
  - transitivity (a * (v00 * v01 + v10 * v11 + v20 * v21)
                  + b * (v01 * v01 + v11 * v11 + v21 * v21)
                  + c * (v01 * v02 + v11 * v12 + v21 * v22)); [ring|].
    rewrite C01, C11, C12; ring.
  - transitivity (a * (v00 * v02 + v10 * v12 + v20 * v22)
                  + b * (v01 * v02 + v11 * v12 + v21 * v22)
                  + c * (v02 * v02 + v12 * v12 + v22 * v22)); [ring|].
    rewrite C02, C12, C22; ring.
Qed.

End PlottedEllipsoid.

(** Every surface point [plot_ellipsoid] draws lies on the ellipsoid with
    the given centre, radii and (orthonormal) axes: in the coordinates of
    the axes, [sum_j (q_j / radii_j)^2] is the squared length of the mesh
    point, which is 1 on the unit-sphere mesh (exact arithmetic, non-zero
    radii). *)
Theorem plotted_point_on_ellipsoid :
  forall (center radii : vec3 R) (V : mat3 R) (s : vec3 R),
    orthonormal V ->
    (let '(r0, r1, r2) := radii in r0 <> 0 /\ r1 <> 0 /\ r2 <> 0)%R ->
    let '(q0, q1, q2) :=
      mat_vec (transpose V) (vsub (ellipsoid_point center radii V s) center) in
    let '(r0, r1, r2) := radii in
    (q0 / r0 * (q0 / r0) + q1 / r1 * (q1 / r1) + q2 / r2 * (q2 / r2))%R
    = dot3 s s.
Proof.
  intros center radii V s Ho Hr.
  rewrite (@ellipsoid_point_axes center radii V s Ho).
  destruct s as [[x y] z], radii as [[r0 r1] r2]; destruct Hr as (H0 & H1 & H2).
  unfold dot3; cbn [fmul fadd Exact]; field; repeat split; assumption.
Qed.

Lemma plotted_point_on_ellipsoid_witness :
  let '(q0, q1, q2) :=
    mat_vec (transpose identity3)
      (vsub (ellipsoid_point (1, 2, 3) (2, 3, 4) identity3 (0, 1, 0)) (1, 2, 3))%R in
  (q0 / 2 * (q0 / 2) + q1 / 3 * (q1 / 3) + q2 / 4 * (q2 / 4))%R
  = dot3 (0, 1, 0)%R (0, 1, 0)%R.
Proof.
  apply (@plotted_point_on_ellipsoid (1, 2, 3)%R (2, 3, 4)%R identity3 (0, 1, 0)%R
           identity3_orthonormal).
  repeat split; lra.
Defined.

(** For an ellipsoid whose axes are the coordinate axes (eigenvector
    matrix the identity) the transform [calibrate_accelerometer] builds
    undoes [plot_ellipsoid]: calibrating a drawn surface point gives back
    its mesh point (exact arithmetic, non-zero radii). *)
Theorem calibration_undoes_plot :
  forall (center radii : vec3 R) (s : vec3 R),
    (let '(r0, r1, r2) := radii in r0 <> 0 /\ r1 <> 0 /\ r2 <> 0)%R ->
    calibrate_points center
      (mat_mat identity3 (diag (vmap (fun r => fdiv fone r) radii)))
      [ellipsoid_point center radii identity3 s]
    = [s].
Proof.
  intros center radii s Hr.
  destruct s as [[x y] z], radii as [[r0 r1] r2], center as [[c0 c1] c2].
  destruct Hr as (H0 & H1 & H2).
  unfold calibrate_points, ellipsoid_point, mat_mat, diag, vmap, row_mat,
    identity3, mat_vec, vadd, vsub, transpose, dot3.
  cbn [map fmul fadd fsub fdiv fone fzero gemv_dot gemm_dot Exact].
  unfold dot_in_order.
  f_equal; apply triple_eq; field; repeat split; assumption.
Qed.

Lemma calibration_undoes_plot_witness :
  calibrate_points (1, 2, 3)%R
    (mat_mat identity3 (diag (vmap (fun r => fdiv fone r) (2, 3, 4)%R)))
    [ellipsoid_point (1, 2, 3)%R (2, 3, 4)%R identity3 (0, 1, 0)%R]
  = [(0, 1, 0)%R].
Proof.
  apply (@calibration_undoes_plot (1, 2, 3)%R (2, 3, 4)%R (0, 1, 0)%R).
  repeat split; lra.
Defined.

(** ** A NaN radius *)

Lemma float_add_nan_r (x : float) : (x + nan)%float = nan.
Proof.
  apply Prim2SF_inj; rewrite add_spec.
  change (Prim2SF nan) with S754_nan.
  destruct (Prim2SF x) as [?|?| |? ? ?]; reflexivity.
Qed.

Lemma float_add_nan_l (x : float) : (nan + x)%float = nan.
Proof.
  apply Prim2SF_inj; rewrite add_spec.
  change (Prim2SF nan) with S754_nan; reflexivity.
Qed.

Lemma float_nan_mul (x : float) : (nan * x)%float = nan.
Proof. rewrite float_mul_comm; apply float_mul_nan. Qed.

(** A NaN among the radii makes every entry of the calibrated row NaN. *)
Lemma nan_radius_row (V : mat3 float) (radii d : vec3 float) :
  (let '(r0, r1, r2) := radii in r0 = nan \/ r1 = nan \/ r2 = nan) ->
  row_mat d (transpose (mat_mat V (diag (vmap (fun r => fdiv fone r) radii))))
  = (nan, nan, nan).
Proof.
  destruct V as [[[[v00 v01] v02] [[v10 v11] v12]] [[v20 v21] v22]].
  destruct radii as [[r0 r1] r2], d as [[d0 d1] d2].
  unfold mat_mat, row_mat, diag, vmap, transpose, dot3.
  cbn [fmul fadd fdiv fone fzero gemm_dot Float64]; unfold dot_in_order.
  intros [-> | [-> | ->]];
    change (1 / nan)%float with nan;
    rewrite ?float_mul_nan, ?float_add_nan_r, ?float_add_nan_l,
            ?float_mul_nan, ?float_add_nan_r, ?float_add_nan_l;
    reflexivity.
Qed.

(** When the fit returns a NaN radius (see C5: a negative eigenvalue),
    [calibrate_accelerometer] raises nothing and returns a calibrated
    frame in which all three axes of every row are NaN (binary64). *)
Theorem nan_radius_poisons_calibration :
  forall (L : linalg float) (data : list (vec3 float))
         (params : calibration_params float) (calibrated : list (vec3 float))
         (center radii : vec3 float) (evecs : mat3 float) (c : vec3 float),
    calibrate_accelerometer L data = Ok (params, calibrated, center, radii, evecs) ->
    (let '(r0, r1, r2) := radii in r0 = nan \/ r1 = nan \/ r2 = nan) ->
    In c calibrated ->
    c = (nan, nan, nan).
Proof.
  intros L data params calibrated center radii evecs c H Hr Hc.
  unfold calibrate_accelerometer in H.
  destruct (fit_ellipsoid L _ _ _) as [[[ce r] V]|e]; [|discriminate H].
  cbv zeta in H; injection H as <- <- -> -> ->.
  unfold calibrate_points in Hc; cbv zeta in Hc; rewrite map_map in Hc.
  apply in_map_iff in Hc; destruct Hc as (p & <- & _).
  apply nan_radius_row, Hr.
Qed.

(** The hyperboloid points of C5 as a frame. *)
Definition hyperboloid_frame : list (vec3 float) :=
  map (fun p => (of_int (fst (fst p)), of_int (snd (fst p)), of_int (snd p)))
    hyperboloid.

Definition calibration_radii_rows
    (r : result (calibration_params float * list (vec3 float) * vec3 float
                 * vec3 float * mat3 float))
  : option (vec3 float * list (vec3 float)) :=
  match r with
  | Ok (_, calibrated, _, radii, _) => Some (radii, calibrated)
  | Raise _ => None
  end.

Lemma nan_radius_poisons_calibration_witness :
  match calibrate_accelerometer numpy_on_hyperboloid hyperboloid_frame with
  | Ok (_, calibrated, _, _, _) => nth 0 calibrated (0, 0, 0)%float = (nan, nan, nan)
  | Raise _ => False
  end.
Proof.
  assert (Hr : option_map fst
                 (calibration_radii_rows
                    (calibrate_accelerometer numpy_on_hyperboloid hyperboloid_frame))
               = Some (1, 2, nan)%float) by (vm_compute; reflexivity).
  assert (Hl : option_map (fun x => length (snd x))
                 (calibration_radii_rows
                    (calibrate_accelerometer numpy_on_hyperboloid hyperboloid_frame))
               = Some 12) by (vm_compute; reflexivity).
  destruct (calibrate_accelerometer numpy_on_hyperboloid hyperboloid_frame)
    as [[[[[params calibrated] center] radii] evecs]|e] eqn:H;
    [|discriminate Hr].
  cbn in Hr, Hl; injection Hr as ->; injection Hl as Hl.
  apply (@nan_radius_poisons_calibration numpy_on_hyperboloid hyperboloid_frame
           params calibrated center (1, 2, nan)%float evecs _ H).
  - right; right; reflexivity.
  - destruct calibrated as [|c0 rest]; [discriminate Hl | left; reflexivity].
Defined.

(** * Recording a calibration point ([record_data.py]) *)

Section Recording.

Context {F : Type} {AF : Arith F}.
Local Open Scope arith_scope.

(** What one [ser.read()] delivers, as [record_data_point] sees it:
    nothing (a timeout, a serial error, an empty line), a line on which
    [float] raises [ValueError], or the parsed numbers. *)
Inductive line : Type :=
| Silence
| Unparsable
| Numbers (values : list F).

(** The loop of [record_data_point] (lines 109-129): the readings kept so
    far, the retries counted so far, and the lines the port still has to
    deliver; it returns the readings and the lines it did not read.  After
    its last line the port stays silent, so the retries run up to
    [max_retries] and the loop stops with the same readings. *)
Fixpoint collect (num_samples max_retries : nat)
    (readings : list (list F)) (retries : nat) (port : list line)
  : list (list F) * list line :=
  match port with
  | [] => (readings, [])
  | l :: rest =>
      if num_samples <=? length readings then (readings, port)
      else if max_retries <=? retries then (readings, port)
      else
        match l with
        | Silence => collect num_samples max_retries readings (S retries) rest
        | Unparsable => collect num_samples max_retries readings (S retries) rest
        | Numbers values =>
            if 3 <=? length values
            then collect num_samples max_retries
                   (readings ++ [firstn 3 values]) retries rest
            else collect num_samples max_retries readings (S retries) rest
        end
  end.

(** [np.mean(readings_array, axis=0)]: the rows are added one after the
    other, starting from the first, and divided by their number. *)
Definition add_rows (a b : list F) : list F :=
  map (fun xy => fst xy + snd xy) (combine a b).

Definition mean_axis0 (rows : list (list F)) : list F :=
  match rows with
  | [] => []
  | r :: rest =>
      map (fun x => x / fof_nat (length rows)) (fold_left add_rows rest r)
  end.

(** [record_data_point] (lines 104-139): [None] when no valid reading was
    collected, the averaged reading otherwise. *)
Definition record_data_point (num_samples max_retries : nat) (port : list line)
  : option (list F) :=
  match fst (collect num_samples max_retries [] 0 port) with
  | [] => None
  | readings => Some (mean_axis0 readings)
  end.

(** A line that counts as a retry. *)
Definition failed (l : line) : bool :=
  match l with
  | Numbers values => negb (3 <=? length values)
  | _ => true
  end.

(** The reading a line contributes. *)
Definition reading_of (l : line) : list (list F) :=
  match l with
  | Numbers values => if 3 <=? length values then [firstn 3 values] else []
  | _ => []
  end.

(** The lines read before the retries run out: up to and including the
    failed line number [budget]. *)
Fixpoint until_failures (budget : nat) (port : list line) : list line :=
  match budget, port with
  | 0, _ => []
  | _, [] => []
  | S b, l :: rest =>
      l :: until_failures (if failed l then b else budget) rest
  end.

End Recording.

Arguments line F : clear implicits.

Section RecordingFacts.

Context {F : Type} {AF : Arith F}.

Lemma collect_readings (n m : nat) (port : list (line F)) :
  forall (rs : list (list F)) (r : nat),
    fst (collect n m rs r port)
    = if n <=? length rs then rs
      else rs ++ firstn (n - length rs)
                   (flat_map reading_of (until_failures (m - r) port)).
Proof.
  induction port as [|l rest IH]; intros rs r.
  - cbn [collect fst].
    destruct (n <=? length rs); [reflexivity|].
    destruct (m - r); cbn; rewrite firstn_nil, app_nil_r; reflexivity.
  - cbn [collect].
    destruct (Nat.leb_spec n (length rs)) as [Hn|Hn]; [reflexivity|].
    destruct (Nat.leb_spec m r) as [Hm|Hm].
    + replace (m - r) with 0 by lia; cbn.
      rewrite firstn_nil, app_nil_r; reflexivity.
    + destruct (m - r) as [|b] eqn:Hb; [lia|].
      assert (Eb : m - S r = b) by lia.
      cbn [until_failures flat_map].
      destruct l as [| |values]; cbn [failed reading_of].
      * rewrite IH, Eb.
        destruct (Nat.leb_spec n (length rs)); [lia | reflexivity].
      * rewrite IH, Eb.
        destruct (Nat.leb_spec n (length rs)); [lia | reflexivity].
      * destruct (3 <=? length values); cbn [negb].
        -- rewrite IH, Hb, length_app; cbn [length].
           destruct (Nat.leb_spec n (length rs + 1)) as [H1|H1].
           ++ replace (n - length rs) with 1 by lia; reflexivity.
           ++ rewrite <- app_assoc; cbn [app].
              replace (n - length rs) with (S (n - (length rs + 1))) by lia.
              reflexivity.
        -- rewrite IH, Eb.
           destruct (Nat.leb_spec n (length rs)); [lia | reflexivity].
Qed.

Lemma reading_of_shape (l : line F) :
  Forall (fun r => length r = 3) (reading_of l).
Proof.
  destruct l as [| |values]; unfold reading_of; try constructor.
  destruct (Nat.leb_spec 3 (length values)); constructor; [|constructor].
  rewrite length_firstn; lia.
Qed.

Lemma readings_shape (port : list (line F)) :
  Forall (fun r => length r = 3) (flat_map reading_of port).
Proof.
  induction port as [|l rest IH]; cbn; [constructor|].
  apply Forall_app; split; [apply reading_of_shape | exact IH].
Qed.

Lemma Forall_firstn {A : Type} (P : A -> Prop) (n : nat) (l : list A) :
  Forall P l -> Forall P (firstn n l).
Proof.
  intros H; rewrite <- (firstn_skipn n l) in H.
  apply Forall_app in H; apply H.
Qed.

(** The lines [collect] read and the lines it left make up the port, and
    it reads no more lines than the readings and retries it still has. *)
Lemma collect_consumed (n m : nat) (port : list (line F)) :
  forall (rs : list (list F)) (r : nat),
    exists consumed,
      port = consumed ++ snd (collect n m rs r port) /\
      length consumed <= (n - length rs) + (m - r).
Proof.
  induction port as [|l rest IH]; intros rs r.
  - exists []; split; [reflexivity | cbn; lia].
  - cbn [collect].
    destruct (Nat.leb_spec n (length rs)) as [Hn|Hn];
      [exists []; split; [reflexivity | cbn; lia]|].
    destruct (Nat.leb_spec m r) as [Hm|Hm];
      [exists []; split; [reflexivity | cbn; lia]|].
    assert (step : forall rs' r',
               (n - length rs') + (m - r') < (n - length rs) + (m - r) ->
               exists consumed,
                 l :: rest = consumed ++ snd (collect n m rs' r' rest) /\
                 length consumed <= (n - length rs) + (m - r)).
    { intros rs' r' Hs; destruct (IH rs' r') as (c & Hc & Hb).
      exists (l :: c); split; [cbn; f_equal; exact Hc | cbn; lia]. }
    destruct l as [| |values].
    + apply step; lia.
    + apply step; lia.
    + destruct (3 <=? length values).
      * apply step; rewrite length_app; cbn; lia.
      * apply step; lia.
Qed.

End RecordingFacts.

Lemma recorded_readings_aux {F : Type} {AF : Arith F} (n m : nat)
    (port : list (line F)) :
  let readings := fst (collect n m [] 0 port) in
  readings = firstn n (flat_map reading_of (until_failures m port)) /\
  length readings <= n /\
  Forall (fun r => length r = 3) readings.
Proof.
  intros readings.
  assert (E : readings
              = firstn n (flat_map reading_of (until_failures m port))).
  { unfold readings; rewrite collect_readings; cbn [length].
    rewrite !Nat.sub_0_r.
    destruct (Nat.leb_spec n 0) as [H0|H0]; [|reflexivity].
    replace n with 0 by lia; reflexivity. }
  split; [exact E|]; rewrite E; split.
  - apply firstn_le_length.
  - apply Forall_firstn, readings_shape.
Qed.

(** The readings [record_data_point] averages are the first [num_samples]
    valid readings (the first three numbers of a line with at least three)
    among the lines read before the retries run out, that is up to the
    failed line number [max_retries]; failures are counted over the whole
    call, not in a row.  There are at most [num_samples] of them, each of
    three numbers. *)
Theorem recorded_readings :
  forall (F : Type) (AF : Arith F) (num_samples max_retries : nat)
         (port : list (line F)),
    let readings := fst (collect num_samples max_retries [] 0 port) in
    readings
    = firstn num_samples
        (flat_map reading_of (until_failures max_retries port)) /\
    length readings <= num_samples /\
    Forall (fun r => length r = 3) readings.
Proof. intros; apply recorded_readings_aux. Qed.

(** [record_data_point] reads at most [num_samples + max_retries] lines
    from the port and leaves the rest unread. *)
Theorem recording_reads_bounded :
  forall (F : Type) (AF : Arith F) (num_samples max_retries : nat)
         (port : list (line F)),
    exists consumed,
      port = consumed ++ snd (collect num_samples max_retries [] 0 port) /\
      length consumed <= num_samples + max_retries.
Proof.
  intros F AF n m port.
  destruct (collect_consumed n m port [] 0) as (c & Hc & Hb).
  exists c; split; [exact Hc | cbn in Hb; lia].
Qed.

Lemma add_rows_length {F : Type} {AF : Arith F} (a b : list F) :
  length a = 3 -> length b = 3 -> length (add_rows a b) = 3.
Proof.
  intros Ha Hb; unfold add_rows; rewrite length_map, length_combine; lia.
Qed.

Lemma sum_rows_length {F : Type} {AF : Arith F} (rows : list (list F)) :
  forall acc, length acc = 3 -> Forall (fun r => length r = 3) rows ->
              length (fold_left add_rows rows acc) = 3.
Proof.
  induction rows as [|r rows IH]; intros acc Ha Hr; [exact Ha|].
  inversion Hr; subst; cbn [fold_left].
  apply IH; [apply add_rows_length; assumption | assumption].
Qed.

(** [record_data_point] returns [None] exactly when [num_samples] is 0 or
    no line read before the retries run out holds three numbers;
    otherwise it returns an average of three components. *)
Theorem record_data_point_result :
  forall (F : Type) (AF : Arith F) (num_samples max_retries : nat)
         (port : list (line F)),
    (record_data_point num_samples max_retries port = None <->
     num_samples = 0 \/
     flat_map reading_of (until_failures max_retries port) = []) /\
    (forall avg, record_data_point num_samples max_retries port = Some avg ->
                 length avg = 3).
Proof.
  intros F AF n m port.
  destruct (recorded_readings_aux n m port) as (E & _ & Hs).
  unfold record_data_point; rewrite E in *.
  set (good := flat_map reading_of (until_failures m port)) in *.
  split.
  - split.
    + destruct (firstn n good) as [|r rs] eqn:Hf; [|discriminate].
      intros _; destruct n as [|n]; [left; reflexivity|].
      destruct good; [right; reflexivity | discriminate Hf].
    + intros [-> | ->]; [reflexivity | rewrite firstn_nil; reflexivity].
  - intros avg; destruct (firstn n good) as [|r rs] eqn:Hf; [discriminate|].
    intros H; injection H as <-.
    inversion Hs; subst.
    unfold mean_axis0; rewrite length_map.
    apply sum_rows_length; assumption.
Qed.

(** * Zero-velocity updates under constant acceleration *)

Section ConstantMagnitude.

Local Open Scope R_scope.

Lemma sum_const (l : list R) (c acc : R) :
  Forall (fun x => x = c) l ->
  fold_left Rplus l acc = acc + INR (length l) * c.
Proof.
  revert acc; induction l as [|x l IH]; intros acc H.
  - cbn; lra.
  - inversion H; subst.
    cbn [fold_left]; rewrite IH by assumption.
    change (length (c :: l)) with (S (length l)); rewrite S_INR; lra.
Qed.

Lemma sum_zero (l : list R) :
  Forall (fun x => x = 0) l -> fold_left Rplus l 0 = 0.
Proof. intros H; rewrite (sum_const 0 H); lra. Qed.

(** The sample variance of a window of equal values is 0, when there is
    one. *)
Lemma window_var_const (l : list R) (c : R) :
  Forall (fun x => x = c) l -> fillna0 (window_var l) = 0.
Proof.
  intros H; unfold window_var.
  destruct l as [|a [|b r]]; try reflexivity.
  set (w := a :: b :: r) in *.
  cbn [fillna0 fisnan Exact].
  unfold sum_list; cbn [fsub fmul fdiv fadd fzero fone fof_nat Exact].
  rewrite (sum_const 0 H).
  assert (Hn : INR (length w) <> 0) by (apply not_0_INR; discriminate).
  rewrite sum_zero; [unfold Rdiv; ring|].
  apply Forall_map.
  apply (Forall_impl _ (P := fun x => x = c)); [|exact H].
  intros x ->; field; exact Hn.
Qed.

Lemma Forall_window (l : list R) (c : R) (w i : nat) :
  Forall (fun x => x = c) l -> Forall (fun x => x = c) (window_at l w i).
Proof.
  intros H; unfold window_at.
  apply Forall_firstn.
  rewrite <- (firstn_skipn (S i - w) l) in H.
  apply Forall_app in H; apply H.
Qed.

(** A series whose acceleration magnitude is the same at every sample is
    detected stationary at every sample, for every window size, as soon as
    the threshold is positive. *)
Lemma constant_magnitude_stationary (data : DataFrame R) (thr c : R) (w i : nat) :
  0 < thr ->
  (forall s, In s data -> magnitude (x_acc s) (y_acc s) (z_acc s) = c) ->
  (i < length data)%nat ->
  nth i (detect_stationary_periods data thr w) false = true.
Proof.
  intros Ht Hc Hi.
  unfold detect_stationary_periods, rolling_var; cbv zeta.
  rewrite !map_map, length_map.
  set (mags := map (fun s => magnitude (x_acc s) (y_acc s) (z_acc s)) data).
  assert (Hm : Forall (fun x => x = c) mags).
  { apply Forall_map, Forall_forall; exact Hc. }
  rewrite (nth_map_in_range _ (seq 0%nat (length data)) 0%nat) by (rewrite length_seq; exact Hi).
  rewrite seq_nth by exact Hi; cbn [Nat.add].
  assert (E : fillna0 (if (S i <? w)%nat then None else window_var (window_at mags w i))
              = 0).
  { destruct (S i <? w)%nat; [reflexivity|].
    apply (window_var_const (c := c)), Forall_window, Hm. }
  rewrite E; cbn [fltb Exact fzero].
  destruct (Rlt_dec 0 thr); [reflexivity | contradiction].
Qed.

End ConstantMagnitude.

(** In ZUPT mode a series whose acceleration has the same magnitude at
    every sample (a uniformly accelerated motion, for instance) is
    integrated to no motion at all: with a positive threshold every sample
    counts as stationary, and velocity and position are zero at every
    index, for every window size (exact arithmetic). *)
Theorem zupt_constant_magnitude_no_motion :
  forall (cfg : config R) (data : DataFrame R) (thr c : R) (w i : nat),
    (0 < thr)%R ->
    (forall s, In s data -> magnitude (x_acc s) (y_acc s) (z_acc s) = c) ->
    i < length data ->
    let st := pd_arrays (calculate_position_with_zupt cfg data thr w) in
    nth i (detect_stationary_periods data thr w) false = true /\
    velocity_at st i = zero3 /\
    position_at st i = zero3.
Proof.
  intros cfg data thr c w i Ht Hc; induction i as [|k IH]; intros Hi st.
  - split; [apply (@constant_magnitude_stationary data thr c w 0 Ht Hc Hi)|].
    destruct (zupt_boundary cfg data thr w) as (_ & _ & _ & Hv & Hp); auto.
  - destruct (IH ltac:(lia)) as (_ & Vk & Pk); fold st in Vk, Pk.
    pose proof (@constant_magnitude_stationary data thr c w (S k) Ht Hc Hi) as Hs.
    split; [exact Hs|].
    assert (Hr : 1 <= S k < length data) by lia.
    destruct (zupt_rules cfg data thr w Hr) as [(Hx & Hy & Hz) (Px & Py & Pz)].
    fold st in Hx, Hy, Hz, Px, Py, Pz.
    unfold velocity_rule in Hx, Hy, Hz; unfold position_rule in Px, Py, Pz.
    rewrite Hs in Hx, Hy, Hz; cbn [negb] in Hx, Hy, Hz.
    replace (S k - 1) with k in * by lia.
    unfold velocity_at, position_at, zero3 in Vk, Pk.
    injection Vk as Vx Vy Vz; injection Pk as Qx Qy Qz.
    rewrite Qx, Vx, Hx in Px; rewrite Qy, Vy, Hy in Py; rewrite Qz, Vz, Hz in Pz.
    cbn [fadd fmul fhalf fzero Exact] in Px, Py, Pz.
    unfold velocity_at, position_at, zero3.
    rewrite Hx, Hy, Hz, Px, Py, Pz; split; apply triple_eq; cbn; lra.
Qed.

(** Uniform acceleration of 2 m/s^2 along x. *)
Definition uniform : DataFrame R :=
  [ mkSample 0 2 0 0; mkSample 1 2 0 0; mkSample 2 2 0 0 ]%R.

Lemma zupt_constant_magnitude_no_motion_witness :
  velocity_at (pd_arrays (calculate_position_with_zupt plain_mps2 uniform (1 / 100)%R 2)) 2
  = zero3.
Proof.
  refine (proj1 (proj2 (@zupt_constant_magnitude_no_motion plain_mps2 uniform
                          (1 / 100)%R (magnitude 2 0 0)%R 2 2 _ _ _))).
  - lra.
  - intros s [<-|[<-|[<-|[]]]]; reflexivity.
  - cbn; lia.
Defined.
